(** * nodestatus: the BIRD protocol scanner of pkg/nodestatus/status.go

    A shallow embedding of the parsing core of [status.go]: the process
    matcher [psContains], the peer-name regular expression, the status-line
    parser [unmarshalBIRD], the line scanner [scanBIRDPeers], the duration
    formatter [formatTimedelta], the two printing front ends and the
    handler [Status].

    Go strings are byte sequences; they are modelled by [string] (a list of
    8-bit [ascii]).  Slices are lists, a nil slice being the empty list.  A
    Go [error] is modelled by its message. *)

From Stdlib Require Import String Ascii List Bool Arith ZArith Lia.
From Stdlib Require Import DecimalString.
Import ListNotations.

Local Open Scope string_scope.
Local Open Scope list_scope.

(** ** Results of Go functions that can fail at run time *)

(** A Go call either returns its value or panics (here: a slice expression
    out of range). *)
Inductive outcome (A : Type) : Type :=
| Returned (a : A)
| Panicked.

Arguments Returned {A} a.
Arguments Panicked {A}.

Definition error := string.

(** ** The parts of package [strings] the code calls *)

Module strings.

(** [strings.HasPrefix(s, prefix)]. *)
Definition HasPrefix (s p : string) : bool := String.prefix p s.

(** The six ASCII white-space bytes of Go's [asciiSpace] table. *)
Definition asciiSpace (c : ascii) : bool :=
  let n := nat_of_ascii c in
  Nat.eqb n 9 || Nat.eqb n 10 || Nat.eqb n 11 || Nat.eqb n 12
  || Nat.eqb n 13 || Nat.eqb n 32.

Definition byteIs (n : nat) (c : ascii) : bool := Nat.eqb (nat_of_ascii c) n.

Definition byteIn (lo hi : nat) (c : ascii) : bool :=
  Nat.leb lo (nat_of_ascii c) && Nat.leb (nat_of_ascii c) hi.

(** Width in bytes of a white-space rune ([unicode.IsSpace]) encoded at the
    head of [s]; [0] when [s] does not start with one.  Beyond the ASCII
    bytes these are U+0085, U+00A0, U+1680, U+2000..U+200A, U+2028, U+2029,
    U+202F, U+205F and U+3000 in their UTF-8 encoding.  Every other byte,
    valid UTF-8 or not, decodes to a rune that is not white space. *)
Definition spaceWidth (s : string) : nat :=
  match s with
  | String c rest =>
      if asciiSpace c then 1
      else match rest with
           | String c2 rest2 =>
               if byteIs 194 c && (byteIs 133 c2 || byteIs 160 c2) then 2
               else match rest2 with
                    | String c3 _ =>
                        if byteIs 225 c && byteIs 154 c2 && byteIs 128 c3 then 3
                        else if byteIs 226 c && byteIs 128 c2
                                && (byteIn 128 138 c3 || byteIs 168 c3
                                    || byteIs 169 c3 || byteIs 175 c3) then 3
                        else if byteIs 226 c && byteIs 129 c2 && byteIs 159 c3 then 3
                        else if byteIs 227 c && byteIs 128 c2 && byteIs 128 c3 then 3
                        else 0
                    | EmptyString => 0
                    end
           | EmptyString => 0
           end
  | EmptyString => 0
  end.

(** The field being collected, if any, is closed and emitted. *)
Definition emit (cur : option string) : list string :=
  match cur with
  | Some f => [f]
  | None => []
  end.

Definition extend (cur : option string) (c : ascii) : option string :=
  match cur with
  | Some f => Some (f ++ String c EmptyString)%string
  | None => Some (String c EmptyString)
  end.

(** The loop of [strings.Fields]: [skip] counts the bytes still to pass of
    a multi-byte white-space rune, [cur] is the field under construction. *)
Fixpoint fieldsFrom (skip : nat) (cur : option string) (s : string) : list string :=
  match s with
  | EmptyString => emit cur
  | String c rest =>
      match skip with
      | S k => fieldsFrom k cur rest
      | O =>
          match spaceWidth s with
          | O => fieldsFrom 0 (extend cur c) rest
          | S w => emit cur ++ fieldsFrom w None rest
          end
      end
  end.

(** [strings.Fields(s)]: the maximal runs of non-white-space of [s]. *)
Definition Fields (s : string) : list string := fieldsFrom 0 None s.

(** [strings.Join(elems, sep)]. *)
Fixpoint Join (elems : list string) (sep : string) : string :=
  match elems with
  | [] => ""
  | [e] => e
  | e :: more => (e ++ sep ++ Join more sep)%string
  end.

(** The loop of [strings.Replace(s, old, new, -1)] for a non-empty [old]:
    occurrences of [old] are replaced from left to right without overlap;
    [skip] counts the bytes of a replaced occurrence still to pass. *)
Fixpoint replaceFrom (old new : string) (skip : nat) (s : string) : string :=
  match s with
  | EmptyString => EmptyString
  | String c rest =>
      match skip with
      | S k => replaceFrom old new k rest
      | O =>
          if String.prefix old s
          then (new ++ replaceFrom old new (String.length old - 1) rest)%string
          else String c (replaceFrom old new 0 rest)
      end
  end.

Definition ReplaceAll (s old new : string) : string := replaceFrom old new 0 s.

End strings.

(** [s[n:]]: the slice expression panics ([None]) when [n > len(s)]. *)
Fixpoint sliceFrom (n : nat) (s : string) : option string :=
  match n with
  | O => Some s
  | S k =>
      match s with
      | EmptyString => None
      | String _ rest => sliceFrom k rest
      end
  end.

(** [reflect.DeepEqual] on two non-nil string slices. *)
Fixpoint deepEqual (a b : list string) : bool :=
  match a, b with
  | [], [] => true
  | x :: a', y :: b' => String.eqb x y && deepEqual a' b'
  | _, _ => false
  end.

(** ** Process matching *)

(** The result of [p.CmdlineSlice()] for one process of the list. *)
Inductive Process : Type :=
| Cmdline (cmds : list string)
| CmdlineError (err : error).

(** The inner loop of [psContains]: [proc] from index [i] on against
    [cmds[i:]]; it stops when [cmds] is exhausted and sets the flag on any
    equal pair. *)
Fixpoint matchArgs (proc cmds : list string) (matched : bool) : bool :=
  match proc, cmds with
  | [], _ => matched
  | _ :: _, [] => matched
  | p :: proc', c :: cmds' =>
      matchArgs proc' cmds' (if String.eqb c p then true else matched)
  end.

Fixpoint psContains (proc : list string) (procList : list Process) : bool :=
  match procList with
  | [] => false
  | CmdlineError _ :: more => psContains proc more
  | Cmdline cmds :: more =>
      if matchArgs proc cmds false then true else psContains proc more
  end.

(** What the specification asks of the matcher: the candidate's leading
    tokens equal the expected ones element-wise. *)
Fixpoint leadingTokensEqual (expectedArgv candidateArgv : list string) : bool :=
  match expectedArgv, candidateArgv with
  | [], _ => true
  | _ :: _, [] => false
  | e :: es, c :: cs => String.eqb c e && leadingTokensEqual es cs
  end.

(** ** Peer names *)

Definition noNewline (s : string) : bool :=
  forallb (fun c => negb (strings.byteIs 10 c)) (list_ascii_of_string s).

Definition dropBytes (n : nat) (s : string) : string :=
  substring n (String.length s - n) s.

(** One alternative of the group [(Global|Node|Mesh)] followed by [_(.+)$];
    [.] matches any character but a newline and [$] only the end of the
    text. *)
Fixpoint matchKinds (kinds : list string) (s : string) : list string :=
  match kinds with
  | [] => []
  | k :: more =>
      let rest := dropBytes (String.length k + 1) s in
      if String.prefix (k ++ "_")%string s
         && negb (String.eqb rest "") && noNewline rest
      then [s; k; rest]
      else matchKinds more s
  end.

(** [bgpPeerRegex.FindStringSubmatch(s)] for
    [^(Global|Node|Mesh)_(.+)$]: the whole match and the two groups, or
    nil. *)
Definition bgpPeerRegex_FindStringSubmatch (s : string) : list string :=
  matchKinds ["Global"; "Node"; "Mesh"] s.

Definition bgpTypeMap (k : string) : option string :=
  if String.eqb k "Global" then Some "global"
  else if String.eqb k "Mesh" then Some "node-to-node mesh"
  else if String.eqb k "Node" then Some "node specific"
  else None.

Definition birdExpectedHeadings : list string :=
  ["name"; "proto"; "table"; "state"; "since"; "info"].

Record bgpPeer : Type := mkPeer {
  PeerIP : string;
  PeerType : string;
  State : string;
  Since : string;
  BGPState : string;
  Info : string
}.

(** [bgpPeer{}] *)
Definition emptyPeer : bgpPeer := mkPeer "" "" "" "" "" "".

Definition column (columns : list string) (i : nat) : string := nth i columns "".

(** [b.unmarshalBIRD(line, ipSep)]: the receiver is updated in place, so
    the function returns the flag together with the receiver as the call
    leaves it. *)
Definition unmarshalBIRD (b : bgpPeer) (line ipSep : string) : bool * bgpPeer :=
  let columns := strings.Fields line in
  if Nat.ltb (List.length columns) 6 then (false, b)
  else if negb (String.eqb (column columns 1) "BGP") then (false, b)
  else
    let sm := bgpPeerRegex_FindStringSubmatch (column columns 0) in
    if negb (Nat.eqb (List.length sm) 3) then (false, b)
    else
      let b1 := mkPeer (strings.ReplaceAll (column sm 2) "_" ipSep)
                       (PeerType b) (State b) (Since b) (BGPState b) (Info b) in
      match bgpTypeMap (column sm 1) with
      | None =>
          (false, mkPeer (PeerIP b1) "" (State b1) (Since b1) (BGPState b1) (Info b1))
      | Some typ =>
          let info := if Nat.ltb 6 (List.length columns)
                      then strings.Join (skipn 6 columns) " "
                      else Info b1 in
          (true, mkPeer (PeerIP b1) typ (column columns 3) (column columns 4)
                        (column columns 5) info)
      end.

(** ** The scanner *)

Definition errUnknownFormat : error := "unknown BIRD table output format".
Definition errUnexpectedLine : error := "unexpected output line from BIRD".

(** What [bufio.Scanner] delivers from the connection: the lines for which
    [Scan] returns true, then the error [Err] reports once [Scan] has
    returned false (none at a clean end of the stream).  The scanner
    records a read error as soon as a read fails and still hands out what
    its buffer holds, the unterminated last line included: [connClean] is
    the number of lines delivered before the error was recorded, and [Err]
    already reports the error after each later line.  [connWriteErr] is
    the error of [c.Write], if any. *)
Record Conn : Type := mkStream {
  connWriteErr : option error;
  connLines : list string;
  connErr : option error;
  connClean : nat
}.

(** A stream all of whose lines are delivered before the end of the
    stream or a read error is met. *)
Definition mkConn (writeErr : option error) (lines : list string)
    (err : option error) : Conn :=
  mkStream writeErr lines err (List.length lines).

(** [scanner.Err()] right after a line was delivered, [clean] counting
    that line and the later ones delivered before a read error was
    recorded. *)
Definition pendingErr (clean : nat) (scanErr : option error) : option error :=
  match clean with
  | O => scanErr
  | S _ => None
  end.

(** Appends the row to [peers] when it parses as a BGP peer. *)
Definition appendPeer (peers : list bgpPeer) (row ipSep : string) : list bgpPeer :=
  let '(ok, peer) := unmarshalBIRD emptyPeer row ipSep in
  if ok then peers ++ [peer] else peers.

(** The [for scanner.Scan()] loop of [scanBIRDPeers], entered with the
    lines still to be read, the number of them delivered before a read
    error is recorded, and the peers collected so far.  The [break] at the
    sentinel leaves the loop for [return peers, scanner.Err()]. *)
Fixpoint scanLoop (ipSep : string) (lines : list string) (clean : nat)
    (scanErr : option error) (peers : list bgpPeer)
    : outcome (list bgpPeer * option error) :=
  match lines with
  | [] => Returned (peers, scanErr)
  | str :: rest =>
      if strings.HasPrefix str "0000"
      then Returned (peers, pendingErr clean scanErr)
      else if strings.HasPrefix str "0001"
      then scanLoop ipSep rest (pred clean) scanErr peers
      else if strings.HasPrefix str "2002" then
        match sliceFrom 5 str with
        | None => Panicked
        | Some tail =>
            if negb (deepEqual (strings.Fields tail) birdExpectedHeadings)
            then Returned ([], Some errUnknownFormat)
            else scanLoop ipSep rest (pred clean) scanErr peers
        end
      else if strings.HasPrefix str "1002" then
        match sliceFrom 5 str with
        | None => Panicked
        | Some tail =>
            scanLoop ipSep rest (pred clean) scanErr (appendPeer peers tail ipSep)
        end
      else if strings.HasPrefix str " " then
        match sliceFrom 1 str with
        | None => Panicked
        | Some tail =>
            scanLoop ipSep rest (pred clean) scanErr (appendPeer peers tail ipSep)
        end
      else Returned ([], Some errUnexpectedLine)
  end.

Definition ipSepOf (ipv : string) : string :=
  if String.eqb ipv "6" then ":" else ".".

Definition scanBIRDPeers (ipv : string) (conn : Conn)
    : outcome (list bgpPeer * option error) :=
  scanLoop (ipSepOf ipv) (connLines conn) (connClean conn) (connErr conn) [].

(** The loop again, counting how often the comparison of the header row
    with [birdExpectedHeadings] is evaluated. *)
Fixpoint scanLoopCounting (ipSep : string) (lines : list string) (clean : nat)
    (scanErr : option error) (peers : list bgpPeer) (checks : nat)
    : outcome (list bgpPeer * option error) * nat :=
  match lines with
  | [] => (Returned (peers, scanErr), checks)
  | str :: rest =>
      if strings.HasPrefix str "0000"
      then (Returned (peers, pendingErr clean scanErr), checks)
      else if strings.HasPrefix str "0001"
      then scanLoopCounting ipSep rest (pred clean) scanErr peers checks
      else if strings.HasPrefix str "2002" then
        match sliceFrom 5 str with
        | None => (Panicked, checks)
        | Some tail =>
            if negb (deepEqual (strings.Fields tail) birdExpectedHeadings)
            then (Returned ([], Some errUnknownFormat), S checks)
            else scanLoopCounting ipSep rest (pred clean) scanErr peers (S checks)
        end
      else if strings.HasPrefix str "1002" then
        match sliceFrom 5 str with
        | None => (Panicked, checks)
        | Some tail =>
            scanLoopCounting ipSep rest (pred clean) scanErr
                             (appendPeer peers tail ipSep) checks
        end
      else if strings.HasPrefix str " " then
        match sliceFrom 1 str with
        | None => (Panicked, checks)
        | Some tail =>
            scanLoopCounting ipSep rest (pred clean) scanErr
                             (appendPeer peers tail ipSep) checks
        end
      else (Returned ([], Some errUnexpectedLine), checks)
  end.

Definition headerChecks (ipv : string) (conn : Conn) : nat :=
  snd (scanLoopCounting (ipSepOf ipv) (connLines conn) (connClean conn)
                        (connErr conn) [] 0).

(** The lines after which the loop goes on to the next [Scan]: the ready
    marker, a header row of the expected shape and data rows. *)
Definition continues (str : string) : bool :=
  if strings.HasPrefix str "0000" then false
  else if strings.HasPrefix str "0001" then true
  else if strings.HasPrefix str "2002" then
    match sliceFrom 5 str with
    | None => false
    | Some tail => deepEqual (strings.Fields tail) birdExpectedHeadings
    end
  else if strings.HasPrefix str "1002" then
    match sliceFrom 5 str with
    | None => false
    | Some _ => true
    end
  else strings.HasPrefix str " ".

(** The lines on which a slice expression of the loop is out of range. *)
Definition tooShort (str : string) : bool :=
  (strings.HasPrefix str "2002" || strings.HasPrefix str "1002")
  && Nat.ltb (String.length str) 5.

(** ** Durations *)

Definition two64 : Z := 2 ^ 64.

(** [%d] of an unsigned value. *)
Definition fmtD (n : Z) : string := NilZero.string_of_uint (N.to_uint (Z.to_N n)).

(** [%02d] of an unsigned value. *)
Definition fmt02d (n : Z) : string :=
  let s := fmtD n in
  if Nat.ltb (String.length s) 2 then ("0" ++ s)%string else s.

(** The closure [formatTimedelta] of [printGoBGPPeers]; [d] is an [int64],
    [u] a [uint64] with its wrap-around. *)
Definition formatTimedelta (d : Z) : string :=
  let u := (d mod two64)%Z in
  let neg := (d <? 0)%Z in
  let u := if neg then ((- u) mod two64)%Z else u in
  let secs := (u mod 60)%Z in
  let u := (u / 60)%Z in
  let mins := (u mod 60)%Z in
  let u := (u / 60)%Z in
  let hours := (u mod 24)%Z in
  let days := (u / 24)%Z in
  if (days =? 0)%Z
  then (fmt02d hours ++ ":" ++ fmt02d mins ++ ":" ++ fmt02d secs)%string
  else ((fmtD days ++ "d ")
        ++ (fmt02d hours ++ ":" ++ fmt02d mins ++ ":" ++ fmt02d secs))%string.

(** ** Printing *)

(** What the printing functions do to the outside, in order. *)
Inductive event : Type :=
| Fprint (text : string)
| ConnWrite (text : string)
| ConnClose
| ClientClose
| TableRender (header : list string) (rows : list (list string)).

Definition nl : string := String (ascii_of_nat 10) EmptyString.

Definition peerRow (peer : bgpPeer) : list string :=
  let info := BGPState peer in
  let info := if negb (String.eqb (Info peer) "")
              then (info ++ " " ++ Info peer)%string else info in
  [PeerIP peer; PeerType peer; State peer; Since peer; info].

(** [printPeers(peers)]: one table on standard output. *)
Definition printPeers (peers : list bgpPeer) : list event :=
  [TableRender ["Peer address"; "Peer type"; "State"; "Since"; "Info"]
               (map peerRow peers)].

(** [net.Dial("unix", path)] *)
Inductive dialResult : Type :=
| Dialed (c : Conn)
| DialError (err : error).

(** The two connection attempts of [printBIRDPeers]. *)
Definition dialBIRD (dial : string -> dialResult) (birdSuffix : string) : dialResult :=
  match dial ("/var/run/calico/bird" ++ birdSuffix ++ ".ctl")%string with
  | Dialed c => Dialed c
  | DialError _ => dial ("/var/run/bird/bird" ++ birdSuffix ++ ".ctl")%string
  end.

Definition birdSuffixOf (ipv : string) : string :=
  if String.eqb ipv "6" then "6" else "".

Definition banner (ipv : string) : event :=
  Fprint (nl ++ "IPv" ++ ipv ++ " BGP status" ++ nl)%string.

Definition noPeersFound (ipv : string) : event :=
  Fprint ("No IPv" ++ ipv ++ " peers found." ++ nl)%string.

(** The deferred [c.Close()] runs on every way out once the socket is
    open, a panic included. *)
Definition printBIRDPeers (dial : string -> dialResult) (ipv : string)
    : list event * outcome unit :=
  let birdSuffix := birdSuffixOf ipv in
  let banner := banner ipv in
  match dialBIRD dial birdSuffix with
  | DialError err =>
      ([banner;
        Fprint ("Error querying BIRD: unable to connect to BIRDv" ++ ipv
                ++ " socket: " ++ err)%string],
       Returned tt)
  | Dialed c =>
      let request := ConnWrite ("show protocols" ++ nl)%string in
      match connWriteErr c with
      | Some err =>
          ([banner; request;
            Fprint ("Error executing command: unable to write to BIRD socket: "
                    ++ err ++ nl)%string;
            ConnClose],
           Returned tt)
      | None =>
          match scanBIRDPeers ipv c with
          | Panicked => ([banner; request; ConnClose], Panicked)
          | Returned (_, Some err) =>
              ([banner; request;
                Fprint ("Error executing command: " ++ err)%string;
                ConnClose],
               Returned tt)
          | Returned (peers, None) =>
              if Nat.eqb (List.length peers) 0
              then ([banner; request; noPeersFound ipv; ConnClose], Returned tt)
              else ([banner; request] ++ printPeers peers ++ [ConnClose],
                    Returned tt)
          end
      end
  end.

Inductive AFI : Type := AFI_IP | AFI_IP6.

Definition afiOf (ipv : string) : AFI :=
  if String.eqb ipv "6" then AFI_IP6 else AFI_IP.

(** The fields of a GoBGP neighbour the code reads. *)
Record Neighbor : Type := mkNeighbor {
  NeighborAddress : string;
  Description : string;
  AdminState : string;
  SessionState : string;
  Uptime : Z;
  Downtime : Z
}.

(** [client.ListNeighborByTransport(afi)] *)
Inductive listResult : Type :=
| Neighbors (ns : list Neighbor)
| ListError (err : error).

(** [gobgp.New("")] *)
Inductive clientResult : Type :=
| Client (list : AFI -> listResult)
| ClientError (err : error).

Section GoBGP.

(** [strings.Title] *)
Variable Title : string -> string.

(** [int64(now.Sub(time.Unix(int64(t), 0)).Seconds())] for the [now] of the
    call. *)
Variable secondsSince : Z -> Z.

(** The loop of [printGoBGPPeers] over the neighbours. *)
Fixpoint goBGPPeers (neighbors : list Neighbor) (peers : list bgpPeer) : list bgpPeer :=
  match neighbors with
  | [] => peers
  | n :: more =>
      let ipString := NeighborAddress n in
      let description := Description n in
      let adminState := AdminState n in
      let sessionState := Title (SessionState n) in
      let timeStr :=
        if negb (Uptime n =? 0)%Z
        then
          let t := if String.eqb sessionState "Established"
                   then Uptime n else Downtime n in
          formatTimedelta (secondsSince t)
        else "never" in
      let sm := bgpPeerRegex_FindStringSubmatch description in
      if negb (Nat.eqb (List.length sm) 3) then goBGPPeers more peers
      else
        match bgpTypeMap (column sm 1) with
        | None => goBGPPeers more peers
        | Some typ =>
            goBGPPeers more
              (peers ++ [mkPeer ipString typ adminState timeStr sessionState ""])
        end
  end.

Definition printGoBGPPeers (new : clientResult) (ipv : string) : list event :=
  match new with
  | ClientError err =>
      [Fprint ("Error creating gobgp client: " ++ err ++ nl)%string]
  | Client list =>
      let afi := afiOf ipv in
      let banner := banner ipv in
      match list afi with
      | ListError err =>
          [banner;
           Fprint ("Error retrieving neighbor info: " ++ err ++ nl)%string;
           ClientClose]
      | Neighbors neighbors =>
          let peers := goBGPPeers neighbors [] in
          if Nat.eqb (List.length peers) 0
          then [banner; noPeersFound ipv; ClientClose]
          else [banner] ++ printPeers peers ++ [ClientClose]
      end
  end.

End GoBGP.

(** A table without data rows. *)
Definition emptyTable (e : event) : bool :=
  match e with
  | TableRender _ [] => true
  | _ => false
  end.

Definition isTable (e : event) : bool :=
  match e with
  | TableRender _ _ => true
  | _ => false
  end.

(** ** The status handler *)

Definition errNotRoot : error :=
  "Need super user privileges: Operation not permitted".

(** [enforceRoot()], given the result of [os.Getuid()]. *)
Definition enforceRoot (uid : Z) : option error :=
  if negb (uid =? 0)%Z then Some errNotRoot else None.

(** What [Status] finds on the node: the user id, the result of
    [process.Processes()], the sockets and, for each of the two GoBGP
    queries, the client [gobgp.New] gives. *)
Record Host : Type := mkHost {
  hostUid : Z;
  hostProcesses : list Process;
  hostProcessesErr : option error;
  hostDial : string -> dialResult;
  hostGoBGP : string -> clientResult
}.

(** Sequencing of two printing steps: a panic of the first ends the run. *)
Definition andThen (first : list event * outcome unit)
    (next : list event * outcome unit) : list event * outcome unit :=
  match first with
  | (evs, Panicked) => (evs, Panicked)
  | (evs, Returned _) => (evs ++ fst next, snd next)
  end.

Section StatusHandler.

Variable Title : string -> string.
Variable secondsSince : Z -> Z.

(** [Status(w)] *)
Definition Status (host : Host) : list event * outcome unit :=
  match enforceRoot (hostUid host) with
  | Some err => ([Fprint (err ++ nl)%string], Returned tt)
  | None =>
      let processes := hostProcesses host in
      let listing :=
        match hostProcessesErr host with
        | Some err => [Fprint (err ++ nl)%string]
        | None => []
        end in
      if negb (psContains ["calico-felix"] processes)
         && negb (psContains ["calico-node"; "-felix"] processes)
      then (listing ++ [Fprint ("Calico process is not running." ++ nl)%string],
            Returned tt)
      else
        let running := Fprint ("Calico process is running." ++ nl)%string in
        let backends :=
          if psContains ["bird"] processes || psContains ["bird6"] processes
          then
            andThen
              (if psContains ["bird"] processes
               then printBIRDPeers (hostDial host) "4"
               else ([Fprint (nl ++ "INFO: BIRDv4 process: 'bird' is not running."
                              ++ nl)%string],
                     Returned tt))
              (if psContains ["bird6"] processes
               then printBIRDPeers (hostDial host) "6"
               else ([Fprint (nl ++ "INFO: BIRDv6 process: 'bird6' is not running."
                              ++ nl)%string],
                     Returned tt))
          else if psContains ["calico-bgp-daemon"] processes
          then (printGoBGPPeers Title secondsSince (hostGoBGP host "4") "4"
                ++ printGoBGPPeers Title secondsSince (hostGoBGP host "6") "6",
                Returned tt)
          else ([Fprint (nl ++ "None of the BGP backend processes (BIRD or GoBGP) are running."
                         ++ nl)%string],
                Returned tt) in
        andThen (listing ++ [running], Returned tt)
                (andThen backends ([Fprint nl], Returned tt))
  end.

(** The peer one neighbour becomes in the loop of [printGoBGPPeers], if
    its description is a peer name. *)
Definition neighborPeers (n : Neighbor) : list bgpPeer :=
  goBGPPeers Title secondsSince [n] [].

End StatusHandler.


(** ** Further definitions used to state properties *)

(** The text a data row hands to the line parser. *)
Definition rowText (str : string) : option string :=
  if strings.HasPrefix str "0000" then None
  else if strings.HasPrefix str "0001" then None
  else if strings.HasPrefix str "2002" then None
  else if strings.HasPrefix str "1002" then sliceFrom 5 str
  else if strings.HasPrefix str " " then sliceFrom 1 str
  else None.

(** The peer a row parses to from a fresh record, if the parser accepts
    the row. *)
Definition rowPeer (ipSep row : string) : list bgpPeer :=
  match unmarshalBIRD emptyPeer row ipSep with
  | (true, peer) => [peer]
  | (false, _) => []
  end.

(** The peers the data rows of the lines parse to, in the order of the
    lines. *)
Definition collected (ipSep : string) (lines : list string) : list bgpPeer :=
  flat_map (fun str =>
              match rowText str with
              | Some row => rowPeer ipSep row
              | None => []
              end) lines.

(** One table row as [printPeers] fills it: the info cell is the session
    state, followed by a space and the info when there is one. *)
Definition tableRow (peer : bgpPeer) : list string :=
  [PeerIP peer; PeerType peer; State peer; Since peer;
   if String.eqb (Info peer) "" then BGPState peer
   else (BGPState peer ++ " " ++ Info peer)%string].



Definition bytes (s : string) : list ascii := list_ascii_of_string s.

(** A non-empty string without white-space bytes. *)
Definition isToken (s : string) : bool :=
  negb (String.eqb s "") && forallb (fun c => negb (strings.asciiSpace c)) (bytes s).

Definition noUnderscore (s : string) : bool :=
  forallb (fun c => negb (strings.byteIs 95 c)) (bytes s).

Definition displayType (t : string) : bool :=
  String.eqb t "global" || String.eqb t "node-to-node mesh"
  || String.eqb t "node specific".

(** What every peer of a BIRD scan looks like. *)
Definition wellFormedPeer (p : bgpPeer) : bool :=
  displayType (PeerType p)
  && negb (String.eqb (PeerIP p) "") && noUnderscore (PeerIP p)
  && isToken (State p) && isToken (Since p) && isToken (BGPState p).

Definition isConnWrite (e : event) : bool :=
  match e with
  | ConnWrite _ => true
  | _ => false
  end.

Definition isConnClose (e : event) : bool :=
  match e with
  | ConnClose => true
  | _ => false
  end.

Definition countEvents (f : event -> bool) (evs : list event) : nat :=
  List.length (filter f evs).

(** As many sockets closed as written to. *)
Definition balanced (evs : list event) : Prop :=
  countEvents isConnClose evs = countEvents isConnWrite evs.

(** The request [printBIRDPeers] sends. *)
Definition showProtocols : event := ConnWrite ("show protocols" ++ nl)%string.

(** ** Definitions used to state the properties *)

(** Every underscore of the token becomes the delimiter; every other byte
    is kept. *)
Fixpoint underscoresTo (sep raw : string) : string :=
  match raw with
  | EmptyString => EmptyString
  | String c rest =>
      if strings.byteIs 95 c then (sep ++ underscoresTo sep rest)%string
      else String c (underscoresTo sep rest)
  end.

(** The header rows of a stream. *)
Definition count2002 (lines : list string) : nat :=
  List.length (filter (fun str => strings.HasPrefix str "2002") lines).

(** The header row and the sample response of the specification. *)
Definition headerRow : string := "2002 name proto table state since info".

Definition sampleResponse : list string :=
  [ headerRow;
    "1002 Mesh_192_168_56_101 BGP master up 2016-11-21 Established";
    " Global_10_0_0_5 BGP master up 2016-11-22 Connect extra info here";
    "0000" ].

(** * Properties *)

(** ** Helper lemmas on strings and slices *)

Lemma deepEqual_eq (a b : list string) : deepEqual a b = true <-> a = b.
Proof.
  revert b; induction a as [|x a IH]; intros [|y b]; simpl;
    try (split; [discriminate | discriminate]); try tauto.
  rewrite andb_true_iff, String.eqb_eq, IH.
  split; [intros [-> ->]; reflexivity | intros H; inversion H; auto].
Qed.

Lemma deepEqual_neq (a b : list string) : deepEqual a b = false <-> a <> b.
Proof.
  rewrite <- deepEqual_eq. destruct (deepEqual a b); split; congruence.
Qed.

Lemma sliceFrom_length (n : nat) (s : string) :
  n <= String.length s -> exists tail, sliceFrom n s = Some tail.
Proof.
  revert s; induction n as [|n IH]; intros s Hn; simpl.
  - eauto.
  - destruct s as [|c s]; simpl in Hn; [lia|]. apply IH; lia.
Qed.

Lemma sliceFrom_short (n : nat) (s : string) :
  String.length s < n -> sliceFrom n s = None.
Proof.
  revert s; induction n as [|n IH]; intros s Hn; simpl; [lia|].
  destruct s as [|c s]; simpl in Hn; [reflexivity|]. apply IH; lia.
Qed.

Lemma prefix_split (p s : string) :
  String.prefix p s = true ->
  s = (p ++ dropBytes (String.length p) s)%string.
Proof.
  unfold dropBytes.
  revert s; induction p as [|c p IH]; intros s H; simpl.
  - rewrite Nat.sub_0_r.
    clear H. induction s as [|d s IHs]; simpl; [reflexivity|].
    f_equal. exact IHs.
  - destruct s as [|d s]; simpl in H; [discriminate|].
    destruct (Ascii.ascii_dec c d) as [->|]; [|discriminate].
    simpl. f_equal. apply IH. exact H.
Qed.

(** Two prefixes of one string that have the same length are equal. *)
Lemma prefix_same_length (p q s : string) :
  String.length p = String.length q ->
  String.prefix p s = true -> String.prefix q s = true -> p = q.
Proof.
  revert q s; induction p as [|c p IH]; intros [|d q] s Hlen Hp Hq;
    simpl in Hlen; try discriminate; [reflexivity|].
  destruct s as [|e s]; simpl in Hp, Hq; [discriminate|].
  destruct (Ascii.ascii_dec c e) as [->|]; [|discriminate].
  destruct (Ascii.ascii_dec d e) as [->|]; [|discriminate].
  f_equal. apply (IH q s); auto.
Qed.

Lemma append_length (s1 s2 : string) :
  String.length (s1 ++ s2) = String.length s1 + String.length s2.
Proof. induction s1 as [|c s1 IH]; simpl; [reflexivity | rewrite IH; reflexivity]. Qed.

Lemma append_assoc (s1 s2 s3 : string) :
  ((s1 ++ s2) ++ s3 = s1 ++ s2 ++ s3)%string.
Proof. induction s1 as [|c s1 IH]; simpl; [reflexivity | rewrite IH; reflexivity]. Qed.

(** ** Peer names *)

Lemma byteIs_neq (n : nat) (c : ascii) :
  ascii_of_nat n <> c -> strings.byteIs n c = false.
Proof.
  intros Hne. apply Nat.eqb_neq. intros Heq. apply Hne.
  rewrite <- Heq. apply ascii_nat_embedding.
Qed.

Lemma ReplaceAll_underscore (raw sep : string) :
  strings.ReplaceAll raw "_" sep = underscoresTo sep raw.
Proof.
  unfold strings.ReplaceAll.
  induction raw as [|c raw IH]; [reflexivity|].
  change (strings.replaceFrom "_" sep 0 (String c raw))
    with (if (if Ascii.ascii_dec "_" c then String.prefix "" raw else false)
          then (sep ++ strings.replaceFrom "_" sep 0 raw)%string
          else String c (strings.replaceFrom "_" sep 0 raw)).
  rewrite IH. cbn [underscoresTo].
  destruct (Ascii.ascii_dec "_" c) as [<-|Hne].
  - change (strings.byteIs 95 "_") with true.
    destruct raw; reflexivity.
  - rewrite (byteIs_neq 95 c Hne). reflexivity.
Qed.

(** A match of the regular expression has a kind, an underscore and a
    non-empty rest. *)
Lemma matchKinds_shape (kinds : list string) (s : string) :
  List.length (matchKinds kinds s) = 3 ->
  exists kind raw,
    In kind kinds /\ matchKinds kinds s = [s; kind; raw]
    /\ s = (kind ++ "_" ++ raw)%string /\ raw <> EmptyString.
Proof.
  induction kinds as [|k more IH]; simpl; [discriminate|].
  destruct (String.prefix (k ++ "_") s) eqn:Hp; simpl.
  - destruct (String.eqb (dropBytes (String.length k + 1) s) "") eqn:He; simpl.
    + intros H. destruct (IH H) as (kind & raw & Hin & Hm & Hs & Hr).
      exists kind, raw. auto.
    + destruct (noNewline (dropBytes (String.length k + 1) s)).
      * intros _. exists k, (dropBytes (String.length k + 1) s).
        repeat split; auto.
        -- apply prefix_split in Hp.
           rewrite append_length, append_assoc in Hp. exact Hp.
        -- apply String.eqb_neq. exact He.
      * intros H. destruct (IH H) as (kind & raw & Hin & Hm & Hs & Hr).
        exists kind, raw. auto.
  - intros H. destruct (IH H) as (kind & raw & Hin & Hm & Hs & Hr).
    exists kind, raw. auto.
Qed.

(** ** The inner loop of the process matcher *)

Lemma matchArgs_true (proc cmds : list string) :
  matchArgs proc cmds true = true.
Proof.
  revert cmds; induction proc as [|p proc IH]; intros [|c cmds]; simpl; auto.
  destruct (String.eqb c p); apply IH.
Qed.

(** The flag is raised as soon as one position of the two vectors agrees. *)
Lemma matchArgs_spec (proc cmds : list string) :
  matchArgs proc cmds false = true <->
  exists i tok, nth_error proc i = Some tok /\ nth_error cmds i = Some tok.
Proof.
  revert cmds; induction proc as [|p proc IH]; intros cmds.
  - simpl. split; [discriminate|].
    intros (i & tok & H & _). destruct i; discriminate.
  - destruct cmds as [|c cmds]; simpl.
    + split; [discriminate|].
      intros (i & tok & _ & H). destruct i; discriminate.
    + destruct (String.eqb c p) eqn:E.
      * rewrite matchArgs_true. split; [intros _|reflexivity].
        apply String.eqb_eq in E. subst c.
        exists 0, p. simpl. auto.
      * rewrite IH. split.
        -- intros (i & tok & H1 & H2). exists (S i), tok. simpl. auto.
        -- intros (i & tok & H1 & H2). destruct i as [|i]; simpl in *.
           ++ apply String.eqb_neq in E. congruence.
           ++ exists i, tok. auto.
Qed.

(** ** The scan loop *)

Arguments sliceFrom : simpl never.
Arguments strings.HasPrefix : simpl never.
Arguments strings.Fields : simpl never.
Arguments deepEqual : simpl never.
Arguments appendPeer : simpl never.

(** Case analysis on the tests the loop makes on a line. *)
Ltac split_line :=
  repeat match goal with
         | |- context [strings.HasPrefix ?s ?p] =>
             destruct (strings.HasPrefix s p) eqn:?; simpl in *
         | |- context [match sliceFrom ?n ?s with _ => _ end] =>
             destruct (sliceFrom n s) eqn:?; simpl in *
         | |- context [negb (deepEqual ?a ?b)] =>
             destruct (deepEqual a b) eqn:?; simpl in *
         end.

(** The cases no line can be in: two different codes at once, or a leading
    space on an empty line. *)
Ltac absurd_line :=
  match goal with
  | H1 : strings.HasPrefix ?s ?p = true, H2 : strings.HasPrefix ?s ?q = true |- _ =>
      assert (p = q)
        by (apply (prefix_same_length p q s); [reflexivity | exact H1 | exact H2]);
      discriminate
  | H1 : strings.HasPrefix ?s " " = true, H2 : sliceFrom 1 ?s = None |- _ =>
      destruct s; [discriminate H1 | discriminate H2]
  end.

Lemma scanLoopCounting_erase ipSep lines clean scanErr peers checks :
  fst (scanLoopCounting ipSep lines clean scanErr peers checks)
  = scanLoop ipSep lines clean scanErr peers.
Proof.
  revert clean peers checks;
    induction lines as [|str rest IH]; intros clean peers checks;
    simpl; [reflexivity|].
  split_line; auto.
Qed.

Lemma scanLoopCounting_bound ipSep lines clean scanErr peers checks :
  snd (scanLoopCounting ipSep lines clean scanErr peers checks)
  <= checks + count2002 lines.
Proof.
  unfold count2002.
  revert clean peers checks;
    induction lines as [|str rest IH]; intros clean peers checks;
    simpl; [lia|].
  split_line; try lia;
    try (etransitivity; [apply IH|]; simpl; lia).
Qed.

Lemma scanLoopCounting_exact ipSep lines clean scanErr peers checks :
  forallb continues lines = true ->
  snd (scanLoopCounting ipSep lines clean scanErr peers checks)
  = checks + count2002 lines.
Proof.
  unfold count2002.
  revert clean peers checks;
    induction lines as [|str rest IH]; intros clean peers checks H;
    simpl in *; [lia|].
  apply andb_true_iff in H. destruct H as [Hc Hrest].
  unfold continues in Hc. revert Hc.
  split_line; intros Hc; try discriminate; try congruence;
    try absurd_line; rewrite IH by assumption; simpl; lia.
Qed.

(** Lines that let the loop go on only change the peers collected. *)
Lemma scanLoop_continues ipSep pre rest clean scanErr peers :
  forallb continues pre = true ->
  exists peers',
    scanLoop ipSep (pre ++ rest) clean scanErr peers
    = scanLoop ipSep rest (clean - List.length pre) scanErr peers'.
Proof.
  revert clean peers; induction pre as [|str pre IH]; intros clean peers H;
    simpl in *.
  - exists peers. rewrite Nat.sub_0_r. reflexivity.
  - apply andb_true_iff in H. destruct H as [Hc Hpre].
    replace (clean - S (List.length pre)) with (pred clean - List.length pre)
      by lia.
    unfold continues in Hc. revert Hc.
    split_line; intros Hc; try discriminate; try congruence;
      try absurd_line; apply IH; assumption.
Qed.

(** The two forms of data row hand the row text to the line parser. *)
Lemma scanLoop_continuation_row ipSep line rest clean e peers :
  scanLoop ipSep (String " " line :: rest) clean e peers
  = scanLoop ipSep rest (pred clean) e (appendPeer peers line ipSep).
Proof.
  assert (H0 : strings.HasPrefix (String " " line) "0000" = false) by reflexivity.
  assert (H1 : strings.HasPrefix (String " " line) "0001" = false) by reflexivity.
  assert (H2 : strings.HasPrefix (String " " line) "2002" = false) by reflexivity.
  assert (H3 : strings.HasPrefix (String " " line) "1002" = false) by reflexivity.
  assert (H4 : strings.HasPrefix (String " " line) " " = true)
    by (destruct line; reflexivity).
  simpl. rewrite ?H0, ?H1, ?H2, ?H3, ?H4. reflexivity.
Qed.

Lemma scanLoop_first_row ipSep c line rest clean e peers :
  scanLoop ipSep (("1002" ++ String c line)%string :: rest) clean e peers
  = scanLoop ipSep rest (pred clean) e (appendPeer peers line ipSep).
Proof.
  assert (H0 : strings.HasPrefix ("1002" ++ String c line) "0000" = false)
    by reflexivity.
  assert (H1 : strings.HasPrefix ("1002" ++ String c line) "0001" = false)
    by reflexivity.
  assert (H2 : strings.HasPrefix ("1002" ++ String c line) "2002" = false)
    by reflexivity.
  assert (H3 : strings.HasPrefix ("1002" ++ String c line) "1002" = true)
    by reflexivity.
  simpl. rewrite ?H0, ?H1, ?H2, ?H3. reflexivity.
Qed.

(** A header or first data row of fewer than five bytes makes the slice
    expression fail. *)
Lemma scanLoop_short_row ipSep str rest clean e peers :
  tooShort str = true -> scanLoop ipSep (str :: rest) clean e peers = Panicked.
Proof.
  unfold tooShort. intros H.
  apply andb_true_iff in H. destruct H as [Hcode Hlen].
  apply Nat.ltb_lt in Hlen.
  pose proof (sliceFrom_short 5 str Hlen) as Hslice.
  apply orb_true_iff in Hcode.
  simpl.
  destruct (strings.HasPrefix str "0000") eqn:E0;
    [destruct Hcode; absurd_line|].
  destruct (strings.HasPrefix str "0001") eqn:E1;
    [destruct Hcode; absurd_line|].
  destruct (strings.HasPrefix str "2002") eqn:E2;
    [rewrite Hslice; reflexivity|].
  destruct Hcode as [Hcode|Hcode]; [discriminate|].
  rewrite Hcode, Hslice. reflexivity.
Qed.

(** No slice is out of range when the rows are long enough. *)
Lemma scanLoop_returns ipSep lines clean scanErr peers :
  forallb (fun str => negb (tooShort str)) lines = true ->
  exists r, scanLoop ipSep lines clean scanErr peers = Returned r.
Proof.
  revert clean peers; induction lines as [|str rest IH]; intros clean peers H;
    simpl in *.
  - eauto.
  - apply andb_true_iff in H. destruct H as [Hs Hrest].
    unfold tooShort in Hs.
    destruct (strings.HasPrefix str "0000") eqn:E0; [eauto|].
    destruct (strings.HasPrefix str "0001") eqn:E1; [apply IH; assumption|].
    destruct (strings.HasPrefix str "2002") eqn:E2; simpl in Hs.
    { apply negb_true_iff, Nat.ltb_ge in Hs.
      destruct (sliceFrom_length 5 str Hs) as [tail ->].
      destruct (negb _); [eauto | apply IH; assumption]. }
    destruct (strings.HasPrefix str "1002") eqn:E3; simpl in Hs.
    { apply negb_true_iff, Nat.ltb_ge in Hs.
      destruct (sliceFrom_length 5 str Hs) as [tail ->].
      apply IH; assumption. }
    destruct (strings.HasPrefix str " ") eqn:E4; [|eauto].
    destruct str as [|c str]; [discriminate|].
    change (sliceFrom 1 (String c str)) with (Some str). cbv iota.
    apply IH; assumption.
Qed.

(** What a row adds to the peers is what it parses to on its own. *)
Lemma appendPeer_rowPeer (peers : list bgpPeer) (row ipSep : string) :
  appendPeer peers row ipSep = peers ++ rowPeer ipSep row.
Proof.
  unfold appendPeer, rowPeer.
  destruct (unmarshalBIRD emptyPeer row ipSep) as [[|] peer]; simpl;
    [reflexivity | rewrite app_nil_r; reflexivity].
Qed.

(** Lines that let the loop go on add their peers, in order. *)
Lemma scanLoop_collected ipSep pre rest clean e peers :
  forallb continues pre = true ->
  scanLoop ipSep (pre ++ rest) clean e peers
  = scanLoop ipSep rest (clean - List.length pre) e
             (peers ++ collected ipSep pre).
Proof.
  revert clean peers; induction pre as [|str pre IH]; intros clean peers H;
    simpl in *.
  - rewrite app_nil_r, Nat.sub_0_r. reflexivity.
  - apply andb_true_iff in H. destruct H as [Hc Hpre].
    replace (clean - S (List.length pre)) with (pred clean - List.length pre)
      by lia.
    unfold continues in Hc. revert Hc. unfold rowText.
    split_line; intros Hc; try discriminate; try congruence;
      try absurd_line; rewrite IH by assumption;
      rewrite ?app_assoc; try reflexivity;
      rewrite <- appendPeer_rowPeer; reflexivity.
Qed.

(** * The claims *)

(** C1: for the four-line response (header row, a [1002] row for
    [Mesh_192_168_56_101], a continuation row for [Global_10_0_0_5] with a
    trailer, [0000]) the IPv4 scan succeeds and returns exactly two peers in
    response order: [192.168.56.101], node-to-node mesh, [Established], no
    info; then [10.0.0.5], global, [Connect], info [extra info here]. *)
Theorem scan_sample_response :
  scanBIRDPeers "4" (mkConn None sampleResponse None)
  = Returned
      ([ mkPeer "192.168.56.101" "node-to-node mesh" "up" "2016-11-21"
                "Established" "";
         mkPeer "10.0.0.5" "global" "up" "2016-11-22" "Connect"
                "extra info here" ],
       None).
Proof. vm_compute. reflexivity. Qed.

(** C2: a [2002]-prefixed header row whose remainder does not tokenize to
    exactly [name proto table state since info] is to end the scan with
    the header error and no peers.  The code does so for every such row
    the scan reaches that has the five bytes [str[5:]] needs, whatever it
    had collected; on the row that is exactly [2002], whose remainder is
    empty, it panics instead (the slice is out of range). *)
Theorem malformed_header_aborts_unless_short :
  (forall ipv conn pre bad tail post,
      connLines conn = pre ++ bad :: post ->
      forallb continues pre = true ->
      strings.HasPrefix bad "2002" = true ->
      sliceFrom 5 bad = Some tail ->
      strings.Fields tail <> ["name"; "proto"; "table"; "state"; "since"; "info"] ->
      scanBIRDPeers ipv conn
      = Returned ([], Some "unknown BIRD table output format"))
  /\ (strings.HasPrefix "2002" "2002" = true
      /\ sliceFrom 5 "2002" = None
      /\ scanBIRDPeers "4" (mkConn None ["2002"] None) = Panicked).
Proof.
  split.
  - intros ipv conn pre bad tail post Hlines Hpre H2002 Hslice Hshape.
    unfold scanBIRDPeers. rewrite Hlines.
    destruct (scanLoop_continues (ipSepOf ipv) pre (bad :: post)
                (connClean conn) (connErr conn) [] Hpre) as [peers' ->].
    apply deepEqual_neq in Hshape.
    simpl.
    destruct (strings.HasPrefix bad "0000") eqn:E0; [absurd_line|].
    destruct (strings.HasPrefix bad "0001") eqn:E1; [absurd_line|].
    rewrite H2002, Hslice.
    change birdExpectedHeadings
      with ["name"; "proto"; "table"; "state"; "since"; "info"].
    rewrite Hshape. reflexivity.
  - repeat split; vm_compute; reflexivity.
Qed.

Lemma malformed_header_aborts_unless_short_witness :
  scanBIRDPeers "4"
    (mkConn None
       ["0001 BIRD 1.5.0 ready.";
        "1002 Mesh_172_17_8_102 BGP master up 2016-11-21 Established";
        "2002 proto name table state since info";
        "0000"]
       None)
  = Returned ([], Some "unknown BIRD table output format").
Proof.
  apply (proj1 malformed_header_aborts_unless_short "4" _
           ["0001 BIRD 1.5.0 ready.";
            "1002 Mesh_172_17_8_102 BGP master up 2016-11-21 Established"]
           "2002 proto name table state since info"
           "proto name table state since info" ["0000"]).
  - reflexivity.
  - vm_compute. reflexivity.
  - vm_compute. reflexivity.
  - vm_compute. reflexivity.
  - vm_compute. discriminate.
Defined.

(** C3: the matcher is to hold exactly when the candidate's leading tokens
    equal the expected ones.  The code answers true for [calico-node
    -confd] against the expected [calico-node -felix], where the leading
    tokens differ: one equal position is enough for it. *)
Theorem psContains_accepts_partial_match :
  psContains ["calico-node"; "-felix"] [Cmdline ["calico-node"; "-confd"]] = true
  /\ leadingTokensEqual ["calico-node"; "-felix"] ["calico-node"; "-confd"] = false.
Proof. split; vm_compute; reflexivity. Qed.

(** C6, as stated, fails: every [2002]-prefixed line the scan reads is
    validated, so two header rows give two validations, and a second
    header of the wrong shape still aborts the scan. *)
Lemma header_validated_twice :
  ~ (forall ipv conn, headerChecks ipv conn <= 1)
  /\ scanBIRDPeers "4"
       (mkConn None [headerRow; "2002 proto name table state since info"] None)
     = Returned ([], Some errUnknownFormat).
Proof.
  split.
  - intros claim.
    specialize (claim "4" (mkConn None [headerRow; headerRow; "0000"] None)).
    vm_compute in claim. lia.
  - vm_compute. reflexivity.
Qed.

(** C6, amended: within a single scan the header-shape validation is
    performed once for each [2002]-prefixed line the scan reads, hence at
    most as many times as the stream has such lines, and exactly that
    often when no line ends the scan. *)
Theorem header_validated_per_header_line ipv conn :
  headerChecks ipv conn <= count2002 (connLines conn)
  /\ (forallb continues (connLines conn) = true ->
      headerChecks ipv conn = count2002 (connLines conn)).
Proof.
  unfold headerChecks. split.
  - apply (scanLoopCounting_bound (ipSepOf ipv) (connLines conn) (connClean conn)
             (connErr conn) [] 0).
  - intros H.
    apply (scanLoopCounting_exact (ipSepOf ipv) (connLines conn) (connClean conn)
             (connErr conn) [] 0 H).
Qed.

Lemma header_validated_per_header_line_witness :
  headerChecks "4" (mkConn None [headerRow; headerRow; " kernel1 Kernel master up x"] None)
  = 2.
Proof.
  apply (proj2 (header_validated_per_header_line "4"
                  (mkConn None [headerRow; headerRow; " kernel1 Kernel master up x"]
                          None))).
  vm_compute. reflexivity.
Defined.

(** C7: the scanner is to return for every sequence of lines.  On a line
    that is exactly [2002] or [1002] the slice [str[5:]] is out of range
    and the code panics. *)
Theorem four_byte_row_panics :
  scanBIRDPeers "4" (mkConn None ["2002"] None) = Panicked
  /\ scanBIRDPeers "4" (mkConn None ["1002"] None) = Panicked
  /\ sliceFrom 5 "2002" = None.
Proof. repeat split; vm_compute; reflexivity. Qed.

(** C10, as stated, fails: a [0000] line that the scanner hands out after
    it has recorded a read error (the unterminated last line of a stream
    that then times out) ends the scan with that error, not successfully. *)
Lemma sentinel_after_read_error_reports_error :
  ~ (forall ipv conn pre line post,
        connLines conn = pre ++ line :: post ->
        forallb continues pre = true ->
        strings.HasPrefix line "0000" = true ->
        exists peers, scanBIRDPeers ipv conn = Returned (peers, None)).
Proof.
  intros claim.
  destruct (claim "4"
              (mkStream None
                 [" Mesh_10_0_0_1 BGP master up 2016-11-21 Established"; "0000"]
                 (Some "i/o timeout") 1)
              [" Mesh_10_0_0_1 BGP master up 2016-11-21 Established"]
              "0000" [])
    as [peers H].
  - reflexivity.
  - vm_compute. reflexivity.
  - vm_compute. reflexivity.
  - vm_compute in H. discriminate H.
Qed.

(** C10, amended: a line whose first four bytes are [0000], whatever
    follows them, ends the scan that reaches it with exactly the peers of
    the data rows before it, in order; the error returned with them is nil
    when the line was delivered before any read error was recorded, and
    the scanner's read error otherwise. *)
Theorem sentinel_returns_collected_peers ipv conn pre line post :
  connLines conn = pre ++ line :: post ->
  forallb continues pre = true ->
  strings.HasPrefix line "0000" = true ->
  scanBIRDPeers ipv conn
  = Returned (collected (ipSepOf ipv) pre,
              if Nat.ltb (List.length pre) (connClean conn)
              then None else connErr conn).
Proof.
  intros Hlines Hpre H0.
  unfold scanBIRDPeers. rewrite Hlines.
  rewrite scanLoop_collected by assumption.
  simpl. rewrite H0. do 2 f_equal.
  unfold pendingErr.
  destruct (Nat.ltb (List.length pre) (connClean conn)) eqn:E.
  - apply Nat.ltb_lt in E.
    destruct (connClean conn - List.length pre) eqn:D; [lia | reflexivity].
  - apply Nat.ltb_ge in E.
    replace (connClean conn - List.length pre) with 0 by lia. reflexivity.
Qed.

Lemma sentinel_returns_collected_peers_witness :
  scanBIRDPeers "4"
    (mkConn None
       ["1002 Mesh_10_0_0_1 BGP master up 2016-11-21 Established";
        "0000junk";
        " Mesh_10_0_0_2 BGP master up 2016-11-21 Established"]
       (Some "i/o timeout"))
  = Returned
      ([mkPeer "10.0.0.1" "node-to-node mesh" "up" "2016-11-21" "Established" ""],
       None).
Proof.
  apply (sentinel_returns_collected_peers "4"
           (mkConn None
              ["1002 Mesh_10_0_0_1 BGP master up 2016-11-21 Established";
               "0000junk";
               " Mesh_10_0_0_2 BGP master up 2016-11-21 Established"]
              (Some "i/o timeout"))
           ["1002 Mesh_10_0_0_1 BGP master up 2016-11-21 Established"]
           "0000junk"
           [" Mesh_10_0_0_2 BGP master up 2016-11-21 Established"]).
  - reflexivity.
  - vm_compute. reflexivity.
  - vm_compute. reflexivity.
Defined.

(** C4: the name decoder turns [Mesh_10_0_0_1] with delimiter [.] into a
    node-to-node mesh peer at [10.0.0.1], and [Mesh_fd80_24e2_f998_72d7__2]
    with delimiter [:] into the address [fd80:24e2:f998:72d7::2]; whenever
    a line is accepted, its name is a kind, an underscore and a raw address
    token, and the address is that token with every underscore rewritten to
    the delimiter. *)
Theorem name_decoder_rewrites_underscores :
  unmarshalBIRD emptyPeer "Mesh_10_0_0_1 BGP master up 2016-11-21 Established" "."
  = (true, mkPeer "10.0.0.1" "node-to-node mesh" "up" "2016-11-21" "Established" "")
  /\ unmarshalBIRD emptyPeer
       "Mesh_fd80_24e2_f998_72d7__2 BGP master up 2016-11-21 Established" ":"
     = (true, mkPeer "fd80:24e2:f998:72d7::2" "node-to-node mesh" "up"
                     "2016-11-21" "Established" "")
  /\ (forall b line ipSep b',
         unmarshalBIRD b line ipSep = (true, b') ->
         exists kind raw,
           In kind ["Global"; "Node"; "Mesh"]
           /\ nth_error (strings.Fields line) 0 = Some (kind ++ "_" ++ raw)%string
           /\ bgpTypeMap kind = Some (PeerType b')
           /\ PeerIP b' = underscoresTo ipSep raw).
Proof.
  split; [|split].
  - vm_compute. reflexivity.
  - vm_compute. reflexivity.
  - intros b line ipSep b'. unfold unmarshalBIRD.
    destruct (Nat.ltb (List.length (strings.Fields line)) 6) eqn:Hlen;
      [discriminate|].
    destruct (negb (String.eqb (column (strings.Fields line) 1) "BGP"));
      [discriminate|].
    unfold bgpPeerRegex_FindStringSubmatch.
    destruct (Nat.eqb
                (List.length
                   (matchKinds ["Global"; "Node"; "Mesh"]
                      (column (strings.Fields line) 0))) 3) eqn:Hsm;
      simpl negb; cbv iota; [|discriminate].
    apply Nat.eqb_eq in Hsm.
    destruct (matchKinds_shape _ _ Hsm) as (kind & raw & Hin & Hm & Hname & _).
    rewrite Hm. unfold column at 1 2. cbn [nth].
    destruct (bgpTypeMap kind) as [typ|] eqn:Htyp; [|discriminate].
    intros H. inversion H; subst b'; clear H. cbn [PeerIP PeerType].
    exists kind, raw. repeat split; auto.
    + apply Nat.ltb_ge in Hlen.
      rewrite (nth_error_nth' (strings.Fields line) "") by lia.
      f_equal. exact Hname.
    + apply ReplaceAll_underscore.
Qed.

Lemma name_decoder_rewrites_underscores_witness :
  exists kind raw,
    In kind ["Global"; "Node"; "Mesh"]
    /\ nth_error (strings.Fields "Node_10_0_0_7 BGP master up 2016-11-21 Active") 0
       = Some (kind ++ "_" ++ raw)%string
    /\ bgpTypeMap kind = Some "node specific"
    /\ "10.0.0.7" = underscoresTo "." raw.
Proof.
  apply (proj2 (proj2 name_decoder_rewrites_underscores) emptyPeer
           "Node_10_0_0_7 BGP master up 2016-11-21 Active" "."
           (mkPeer "10.0.0.7" "node specific" "up" "2016-11-21" "Active" "")).
  vm_compute. reflexivity.
Defined.

(** C5: a status line yields a peer only if it has at least six
    white-space separated tokens and its second token is [BGP]; a line
    with fewer tokens or another second token yields none and is skipped
    without an error, as a first row and as a continuation row alike. *)
Theorem peer_only_from_bgp_row ipSep line :
  (forall b,
      fst (unmarshalBIRD b line ipSep) = true ->
      6 <= List.length (strings.Fields line)
      /\ nth_error (strings.Fields line) 1 = Some "BGP")
  /\ (List.length (strings.Fields line) < 6
      \/ nth_error (strings.Fields line) 1 <> Some "BGP" ->
      (forall b, fst (unmarshalBIRD b line ipSep) = false)
      /\ (forall rest clean e peers,
             scanLoop ipSep (String " " line :: rest) clean e peers
             = scanLoop ipSep rest (pred clean) e peers)
      /\ (forall c rest clean e peers,
             scanLoop ipSep (("1002" ++ String c line)%string :: rest) clean e peers
             = scanLoop ipSep rest (pred clean) e peers)).
Proof.
  assert (Honly : forall b,
             fst (unmarshalBIRD b line ipSep) = true ->
             6 <= List.length (strings.Fields line)
             /\ nth_error (strings.Fields line) 1 = Some "BGP").
  { intros b. unfold unmarshalBIRD.
    destruct (Nat.ltb (List.length (strings.Fields line)) 6) eqn:Hlen;
      [discriminate|].
    apply Nat.ltb_ge in Hlen.
    destruct (String.eqb (column (strings.Fields line) 1) "BGP") eqn:Hbgp;
      [|discriminate].
    intros _. split; [exact Hlen|].
    apply String.eqb_eq in Hbgp. unfold column in Hbgp.
    rewrite (nth_error_nth' (strings.Fields line) "") by lia.
    f_equal. exact Hbgp. }
  split; [exact Honly|].
  intros Hskip.
  assert (Hno : forall b, fst (unmarshalBIRD b line ipSep) = false).
  { intros b. destruct (fst (unmarshalBIRD b line ipSep)) eqn:E; [|reflexivity].
    destruct (Honly b E) as [Hlen Hbgp].
    destruct Hskip as [Hshort|Hother]; [lia | contradiction]. }
  assert (Hkeep : forall peers, appendPeer peers line ipSep = peers).
  { intros peers. unfold appendPeer.
    specialize (Hno emptyPeer).
    destruct (unmarshalBIRD emptyPeer line ipSep) as [ok peer].
    simpl in Hno. subst ok. reflexivity. }
  split; [exact Hno|]. split.
  - intros rest clean e peers.
    rewrite scanLoop_continuation_row, Hkeep. reflexivity.
  - intros c rest clean e peers.
    rewrite scanLoop_first_row, Hkeep. reflexivity.
Qed.

Lemma peer_only_from_bgp_row_witness :
  (forall b, fst (unmarshalBIRD b "kernel1 Kernel master up 2016-11-21 x" ".") = false)
  /\ scanLoop "." [" kernel1 Kernel master up 2016-11-21 x"] 1 None []
     = Returned ([], None).
Proof.
  assert (H : List.length (strings.Fields "kernel1 Kernel master up 2016-11-21 x") < 6
              \/ nth_error (strings.Fields "kernel1 Kernel master up 2016-11-21 x") 1
                 <> Some "BGP")
    by (right; vm_compute; discriminate).
  destruct (proj2 (peer_only_from_bgp_row "." "kernel1 Kernel master up 2016-11-21 x") H)
    as (Hno & Hcont & _).
  split; [exact Hno|].
  rewrite (Hcont [] 1 None []). reflexivity.
Defined.

Lemma fmt02d_two_digits (n : Z) :
  (0 <= n < 100)%Z -> String.length (fmt02d n) = 2.
Proof.
  intros H.
  assert (exists k, k < 100 /\ n = Z.of_nat k) as (k & Hk & ->)
    by (exists (Z.to_nat n); lia).
  clear H.
  do 100 (destruct k as [|k]; [reflexivity|]).
  lia.
Qed.

(** C8: 3661 seconds render as [01:01:01] and 90000 seconds as
    [1d 01:00:00]; for every non-negative count the days are left out when
    zero and hours, minutes and seconds are zero-padded to two digits. *)
Theorem formatTimedelta_renders :
  formatTimedelta 3661 = "01:01:01"
  /\ formatTimedelta 90000 = "1d 01:00:00"
  /\ (forall d : Z,
         (0 <= d < 2 ^ 63)%Z ->
         formatTimedelta d
         = ((if (d / 86400 =? 0)%Z then "" else fmtD (d / 86400) ++ "d ")
            ++ fmt02d (d / 3600 mod 24) ++ ":" ++ fmt02d (d / 60 mod 60)
            ++ ":" ++ fmt02d (d mod 60))%string
         /\ String.length (fmt02d (d / 3600 mod 24)) = 2
         /\ String.length (fmt02d (d / 60 mod 60)) = 2
         /\ String.length (fmt02d (d mod 60)) = 2).
Proof.
  split; [vm_compute; reflexivity|].
  split; [vm_compute; reflexivity|].
  intros d Hd.
  assert (H63 : (2 ^ 63 = 9223372036854775808)%Z) by reflexivity.
  assert (H64 : (two64 = 18446744073709551616)%Z) by reflexivity.
  split.
  - unfold formatTimedelta.
    rewrite (Z.mod_small d two64) by lia.
    replace (d <? 0)%Z with false by (symmetry; apply Z.ltb_ge; lia).
    cbv zeta.
    rewrite !Z.div_div by lia.
    change (60 * 60)%Z with 3600%Z. change (60 * (60 * 24))%Z with 86400%Z.
    destruct (d / 86400 =? 0)%Z; reflexivity.
  - repeat split; apply fmt02d_two_digits.
    + pose proof (Z.mod_pos_bound (d / 3600) 24). lia.
    + pose proof (Z.mod_pos_bound (d / 60) 60). lia.
    + pose proof (Z.mod_pos_bound d 60). lia.
Qed.

Lemma formatTimedelta_renders_witness :
  formatTimedelta 86399 = "23:59:59".
Proof.
  destruct (proj2 (proj2 formatTimedelta_renders) 86399%Z) as [H _].
  - split; [lia | reflexivity].
  - rewrite H. vm_compute. reflexivity.
Defined.

(** C9: when the scan succeeds with no peers the caller writes the line
    [No IPv<v> peers found.] and renders no table, for BIRD and for GoBGP;
    no run of either printer ever renders a table without data rows. *)
Theorem empty_result_prints_message :
  (forall dial ipv, existsb emptyTable (fst (printBIRDPeers dial ipv)) = false)
  /\ (forall Title secondsSince new ipv,
         existsb emptyTable (printGoBGPPeers Title secondsSince new ipv) = false)
  /\ (forall dial ipv c,
         dialBIRD dial (birdSuffixOf ipv) = Dialed c ->
         connWriteErr c = None ->
         scanBIRDPeers ipv c = Returned ([], None) ->
         In (Fprint ("No IPv" ++ ipv ++ " peers found."
                     ++ String "010"%char EmptyString)%string)
            (fst (printBIRDPeers dial ipv))
         /\ existsb isTable (fst (printBIRDPeers dial ipv)) = false)
  /\ (forall Title secondsSince list ipv neighbors,
         list (afiOf ipv) = Neighbors neighbors ->
         goBGPPeers Title secondsSince neighbors [] = [] ->
         In (Fprint ("No IPv" ++ ipv ++ " peers found."
                     ++ String "010"%char EmptyString)%string)
            (printGoBGPPeers Title secondsSince (Client list) ipv)
         /\ existsb isTable
              (printGoBGPPeers Title secondsSince (Client list) ipv) = false).
Proof.
  repeat apply conj.
  - intros dial ipv. unfold printBIRDPeers.
    destruct (dialBIRD dial (birdSuffixOf ipv)) as [c|err]; [|reflexivity].
    destruct (connWriteErr c); [reflexivity|].
    destruct (scanBIRDPeers ipv c) as [[peers [err|]]|]; try reflexivity.
    destruct peers as [|p peers]; reflexivity.
  - intros Title secondsSince new ipv. unfold printGoBGPPeers.
    destruct new as [list|err]; [|reflexivity].
    destruct (list (afiOf ipv)) as [neighbors|err]; [|reflexivity].
    destruct (goBGPPeers Title secondsSince neighbors []) as [|p peers];
      reflexivity.
  - intros dial ipv c Hdial Hwrite Hscan. unfold printBIRDPeers.
    rewrite Hdial, Hwrite, Hscan. simpl. auto.
  - intros Title secondsSince list ipv neighbors Hlist Hpeers.
    unfold printGoBGPPeers. rewrite Hlist, Hpeers. simpl. auto.
Qed.

Lemma empty_result_prints_message_witness :
  In (Fprint ("No IPv4 peers found." ++ String "010"%char EmptyString)%string)
     (fst (printBIRDPeers
             (fun _ => Dialed (mkConn None
                                 [headerRow; "1002 kernel1 Kernel master up x"; "0000"]
                                 None))
             "4")).
Proof.
  apply (proj1 (proj2 (proj2 empty_result_prints_message))
           (fun _ => Dialed (mkConn None
                               [headerRow; "1002 kernel1 Kernel master up x"; "0000"]
                               None))
           "4"
           (mkConn None [headerRow; "1002 kernel1 Kernel master up x"; "0000"] None)).
  - reflexivity.
  - reflexivity.
  - vm_compute. reflexivity.
Defined.

(** * Further properties of the code *)

(** ** Process matching *)

Lemma psContains_positions (proc : list string) (procList : list Process) :
  psContains proc procList = true <->
  exists cmds i tok,
    In (Cmdline cmds) procList
    /\ nth_error proc i = Some tok /\ nth_error cmds i = Some tok.
Proof.
  induction procList as [|p more IH]; simpl.
  - split; [discriminate|]. intros (cmds & i & tok & [] & _).
  - destruct p as [cmds|err].
    + destruct (matchArgs proc cmds false) eqn:E.
      * split; [intros _|reflexivity].
        apply matchArgs_spec in E. destruct E as (i & tok & H1 & H2).
        exists cmds, i, tok. auto.
      * rewrite IH. split.
        -- intros (cmds' & i & tok & Hin & H1 & H2).
           exists cmds', i, tok. auto.
        -- intros (cmds' & i & tok & [Heq|Hin] & H1 & H2).
           ++ inversion Heq; subst cmds'.
              assert (matchArgs proc cmds false = true) as Habs
                  by (apply matchArgs_spec; eauto).
              congruence.
           ++ exists cmds', i, tok. auto.
    + rewrite IH. split.
      * intros (cmds' & i & tok & Hin & H1 & H2). exists cmds', i, tok. auto.
      * intros (cmds' & i & tok & [Heq|Hin] & H1 & H2); [discriminate|].
        exists cmds', i, tok. auto.
Qed.

(** X1: [psContains] answers true exactly when some process whose command
    line can be read agrees with the expected vector at some position. *)
Theorem psContains_some_position (proc : list string) (procList : list Process) :
  psContains proc procList = true <->
  exists cmds i tok,
    In (Cmdline cmds) procList
    /\ nth_error proc i = Some tok /\ nth_error cmds i = Some tok.
Proof. exact (psContains_positions proc procList). Qed.

(** X2: a process whose leading tokens equal a non-empty expected vector
    is always found. *)
Theorem psContains_finds_leading_tokens (proc cmds : list string)
    (procList : list Process) :
  proc <> [] ->
  leadingTokensEqual proc cmds = true ->
  In (Cmdline cmds) procList ->
  psContains proc procList = true.
Proof.
  intros Hne Hlead Hin.
  apply psContains_positions.
  destruct proc as [|p proc]; [congruence|].
  destruct cmds as [|c cmds]; simpl in Hlead; [discriminate|].
  apply andb_true_iff in Hlead. destruct Hlead as [Heq _].
  apply String.eqb_eq in Heq. subst c.
  exists (p :: cmds), 0, p. simpl. auto.
Qed.

Lemma psContains_finds_leading_tokens_witness :
  psContains ["calico-node"; "-felix"]
             [CmdlineError "gone"; Cmdline ["calico-node"; "-felix"; "-v"]]
  = true.
Proof.
  apply (psContains_finds_leading_tokens
           ["calico-node"; "-felix"] ["calico-node"; "-felix"; "-v"]).
  - discriminate.
  - reflexivity.
  - simpl. auto.
Defined.

(** ** The scan loop *)

Lemma sliceFrom_none (n : nat) (s : string) :
  sliceFrom n s = None -> String.length s < n.
Proof.
  intros H. destruct (Nat.lt_ge_cases (String.length s) n) as [Hlt|Hge]; [exact Hlt|].
  destruct (sliceFrom_length n s Hge) as [tail Htail]. congruence.
Qed.

(** Rewrites with the outcomes of the tests recorded in the context. *)
Ltac rewrite_tests :=
  repeat match goal with
         | H : strings.HasPrefix _ _ = _ |- _ => rewrite H
         | H : sliceFrom _ _ = _ |- _ => rewrite H
         | H : deepEqual _ _ = _ |- _ => rewrite H
         end.

(** X3: the scan panics exactly when it reaches a [2002] or [1002] row of
    fewer than five bytes. *)
Theorem scan_panics_iff_short_row (ipv : string) (conn : Conn) :
  scanBIRDPeers ipv conn = Panicked <->
  exists pre str post,
    connLines conn = pre ++ str :: post
    /\ forallb continues pre = true /\ tooShort str = true.
Proof.
  unfold scanBIRDPeers. generalize (ipSepOf ipv) as ipSep.
  destruct conn as [w lines e clean]; simpl. intros ipSep. split.
  - generalize (@nil bgpPeer) as peers. revert clean.
    induction lines as [|str rest IH]; intros clean peers; simpl; [discriminate|].
    assert (Hgo : forall peers',
               continues str = true ->
               scanLoop ipSep rest (pred clean) e peers' = Panicked ->
               exists pre str0 post,
                 str :: rest = pre ++ str0 :: post
                 /\ forallb continues pre = true /\ tooShort str0 = true).
    { intros peers' Hc Hp.
      destruct (IH _ peers' Hp) as (pre & s0 & post & -> & Hpre & Hs).
      exists (str :: pre), s0, post. simpl. rewrite Hc, Hpre. auto. }
    assert (Hstop : forall code,
               strings.HasPrefix str code = true ->
               code = "2002" \/ code = "1002" ->
               sliceFrom 5 str = None ->
               exists pre str0 post,
                 str :: rest = pre ++ str0 :: post
                 /\ forallb continues pre = true /\ tooShort str0 = true).
    { intros code Hcode Hwhich Hslice. exists [], str, rest.
      repeat split. unfold tooShort.
      apply sliceFrom_none in Hslice. apply Nat.ltb_lt in Hslice.
      rewrite Hslice. destruct Hwhich; subst code; rewrite Hcode;
        rewrite ?orb_true_r; reflexivity. }
    split_line; intros Hp; try discriminate; try absurd_line;
      try (eapply Hgo; [unfold continues; rewrite_tests; reflexivity | eassumption]);
      try (eapply Hstop; [eassumption | auto | first [assumption | reflexivity]]).
  - intros (pre & str & post & -> & Hpre & Hshort).
    destruct (scanLoop_continues ipSep pre (str :: post) clean e [] Hpre)
      as [peers' ->].
    apply scanLoop_short_row. exact Hshort.
Qed.



(** X5: when no line ends the scan, the end of the stream returns the
    peers of the data rows in the order of the rows, together with the
    scanner's error. *)
Theorem scan_collects_rows_in_order ipv conn :
  forallb continues (connLines conn) = true ->
  scanBIRDPeers ipv conn
  = Returned (collected (ipSepOf ipv) (connLines conn), connErr conn).
Proof.
  intros Hlines. unfold scanBIRDPeers.
  rewrite <- (app_nil_r (connLines conn)) at 1.
  rewrite scanLoop_collected by assumption. reflexivity.
Qed.

Lemma scan_collects_rows_in_order_witness :
  scanBIRDPeers "6"
    (mkStream None
       [" Mesh_fd80__2 BGP master up 2016-11-21 Established";
        " Node_fd80__3 BGP master start 2016-11-22 Active Socket: refused"]
       (Some "i/o timeout") 1)
  = Returned
      ([mkPeer "fd80::2" "node-to-node mesh" "up" "2016-11-21" "Established" "";
        mkPeer "fd80::3" "node specific" "start" "2016-11-22" "Active"
               "Socket: refused"],
       Some "i/o timeout").
Proof.
  apply (scan_collects_rows_in_order "6"
           (mkStream None
              [" Mesh_fd80__2 BGP master up 2016-11-21 Established";
               " Node_fd80__3 BGP master start 2016-11-22 Active Socket: refused"]
              (Some "i/o timeout") 1)).
  vm_compute. reflexivity.
Defined.

(** X6: a scan that returns does so without error, with the scanner's
    error, or with one of the two parse errors and then without any peer. *)
Theorem scan_error_kinds ipv conn peers err :
  scanBIRDPeers ipv conn = Returned (peers, err) ->
  err = None \/ err = connErr conn
  \/ (peers = [] /\ (err = Some errUnknownFormat \/ err = Some errUnexpectedLine)).
Proof.
  unfold scanBIRDPeers. generalize (ipSepOf ipv) as ipSep.
  destruct conn as [w lines e clean]; simpl. intros ipSep.
  enough (Hany : forall clean acc,
             scanLoop ipSep lines clean e acc = Returned (peers, err) ->
             err = None \/ err = e
             \/ (peers = []
                 /\ (err = Some errUnknownFormat \/ err = Some errUnexpectedLine)))
    by (apply (Hany clean)).
  clear clean.
  induction lines as [|str rest IH]; intros clean acc; simpl.
  - intros H. inversion H. auto.
  - split_line; intros H; try discriminate;
      try (inversion H; subst; destruct clean; now auto 8);
      eapply IH; eassumption.
Qed.

Lemma scan_error_kinds_witness :
  Some errUnexpectedLine = None
  \/ Some errUnexpectedLine = connErr (mkConn None ["1002 x BGP"; "junk"] None)
  \/ (@nil bgpPeer = []
      /\ (Some errUnexpectedLine = Some errUnknownFormat
          \/ Some errUnexpectedLine = Some errUnexpectedLine)).
Proof.
  apply (scan_error_kinds "4" (mkConn None ["1002 x BGP"; "junk"] None)).
  vm_compute. reflexivity.
Defined.




(** ** Fields and peer names *)

Lemma bytes_app (a b : string) : bytes (a ++ b) = bytes a ++ bytes b.
Proof.
  unfold bytes. induction a as [|c a IH]; simpl; [reflexivity | rewrite IH; reflexivity].
Qed.

Lemma spaceWidth_zero (c : ascii) (rest : string) :
  strings.spaceWidth (String c rest) = 0 -> strings.asciiSpace c = false.
Proof.
  unfold strings.spaceWidth. destruct (strings.asciiSpace c); [discriminate | reflexivity].
Qed.

Lemma isToken_extend (cur : option string) (c : ascii) :
  (forall f, cur = Some f -> isToken f = true) ->
  strings.asciiSpace c = false ->
  forall f, strings.extend cur c = Some f -> isToken f = true.
Proof.
  intros Hcur Hc f Hf. unfold isToken.
  destruct cur as [g|]; simpl in Hf; inversion Hf; subst f; clear Hf.
  - specialize (Hcur g eq_refl). unfold isToken in Hcur.
    apply andb_true_iff in Hcur. destruct Hcur as [_ Hg].
    apply andb_true_iff. split.
    + destruct g; reflexivity.
    + rewrite bytes_app, forallb_app, Hg. simpl. rewrite Hc. reflexivity.
  - simpl. rewrite Hc. reflexivity.
Qed.

Lemma fieldsFrom_tokens (s : string) :
  forall skip cur,
    (forall f, cur = Some f -> isToken f = true) ->
    Forall (fun f => isToken f = true) (strings.fieldsFrom skip cur s).
Proof.
  induction s as [|c rest IH]; intros skip cur Hcur.
  - simpl. destruct cur as [f|]; simpl; auto.
  - cbn [strings.fieldsFrom]. destruct skip as [|k]; [|apply IH; exact Hcur].
    destruct (strings.spaceWidth (String c rest)) as [|wd] eqn:Hw.
    + apply IH. apply isToken_extend; [exact Hcur|].
      apply (spaceWidth_zero c rest Hw).
    + apply Forall_app. split.
      * destruct cur as [f|]; simpl; auto.
      * apply IH. discriminate.
Qed.

(** The fields of a line are non-empty and hold no white-space byte. *)
Lemma Fields_tokens (s : string) :
  Forall (fun f => isToken f = true) (strings.Fields s).
Proof. apply fieldsFrom_tokens. discriminate. Qed.

Lemma column_token (s : string) (i : nat) :
  i < List.length (strings.Fields s) ->
  isToken (column (strings.Fields s) i) = true.
Proof.
  intros Hi. pose proof (Fields_tokens s) as H.
  rewrite Forall_forall in H. apply H. unfold column. apply nth_In. exact Hi.
Qed.

Lemma token_suffix_noNewline (p raw : string) :
  isToken (p ++ raw) = true -> noNewline raw = true.
Proof.
  unfold isToken, noNewline. intros H.
  apply andb_true_iff in H. destruct H as [_ H].
  rewrite bytes_app, forallb_app in H.
  apply andb_true_iff in H. destruct H as [_ H].
  unfold bytes in H. rewrite forallb_forall in *.
  intros c Hc. specialize (H c Hc).
  apply negb_true_iff in H. apply negb_true_iff.
  unfold strings.asciiSpace in H. unfold strings.byteIs.
  destruct (Nat.eqb (nat_of_ascii c) 10); [|reflexivity].
  rewrite ?orb_true_r in H. simpl in H. rewrite ?orb_true_r in H. discriminate.
Qed.

Lemma prefix_app (p r : string) :
  r <> EmptyString -> String.prefix p (p ++ r) = true.
Proof.
  intros Hr. induction p as [|c p IH]; simpl.
  - destruct r; [congruence | reflexivity].
  - destruct (Ascii.ascii_dec c c); [exact IH | congruence].
Qed.

Lemma substring_all (r : string) : substring 0 (String.length r) r = r.
Proof. induction r as [|c r IH]; simpl; [reflexivity | rewrite IH; reflexivity]. Qed.

Lemma dropBytes_app (p r : string) : dropBytes (String.length p) (p ++ r) = r.
Proof.
  unfold dropBytes. rewrite append_length.
  replace (String.length p + String.length r - String.length p)
    with (String.length r) by lia.
  induction p as [|c p IH]; simpl; [apply substring_all | exact IH].
Qed.

(** A kind, an underscore and a non-empty rest without newline match the
    regular expression, with these groups. *)
Lemma matchKinds_complete (kind raw : string) :
  In kind ["Global"; "Node"; "Mesh"] ->
  raw <> EmptyString -> noNewline raw = true ->
  matchKinds ["Global"; "Node"; "Mesh"] (kind ++ "_" ++ raw)
  = [(kind ++ "_" ++ raw)%string; kind; raw].
Proof.
  intros Hin Hraw Hnl.
  assert (Hhit : forall k more,
             matchKinds (k :: more) (k ++ "_" ++ raw)
             = [(k ++ "_" ++ raw)%string; k; raw]).
  { intros k more. cbn [matchKinds].
    rewrite <- (append_assoc k "_" raw).
    rewrite (prefix_app (k ++ "_") raw Hraw).
    replace (String.length k + 1) with (String.length (k ++ "_"))
      by (rewrite append_length; reflexivity).
    rewrite dropBytes_app, Hnl.
    destruct (String.eqb raw "") eqn:E;
      [apply String.eqb_eq in E; congruence | reflexivity]. }
  simpl in Hin. destruct Hin as [<-|[<-|[<-|[]]]].
  - apply Hhit.
  - change (matchKinds ["Global"; "Node"; "Mesh"] ("Node" ++ "_" ++ raw))
      with (matchKinds ["Node"; "Mesh"] ("Node" ++ "_" ++ raw)).
    apply Hhit.
  - change (matchKinds ["Global"; "Node"; "Mesh"] ("Mesh" ++ "_" ++ raw))
      with (matchKinds ["Mesh"] ("Mesh" ++ "_" ++ raw)).
    apply Hhit.
Qed.

Lemma bgpTypeMap_kinds (kind : string) :
  In kind ["Global"; "Node"; "Mesh"] ->
  exists typ, bgpTypeMap kind = Some typ /\ displayType typ = true.
Proof.
  simpl. intros [<-|[<-|[<-|[]]]]; eexists; split; reflexivity.
Qed.

(** What an accepted line is made of, and the record it leaves. *)
Lemma unmarshalBIRD_inv b line ipSep p :
  unmarshalBIRD b line ipSep = (true, p) ->
  exists kind raw typ,
    In kind ["Global"; "Node"; "Mesh"] /\ raw <> EmptyString
    /\ nth_error (strings.Fields line) 0 = Some (kind ++ "_" ++ raw)%string
    /\ bgpTypeMap kind = Some typ
    /\ 6 <= List.length (strings.Fields line)
    /\ nth_error (strings.Fields line) 1 = Some "BGP"
    /\ p = mkPeer (underscoresTo ipSep raw) typ
                  (column (strings.Fields line) 3)
                  (column (strings.Fields line) 4)
                  (column (strings.Fields line) 5)
                  (if Nat.ltb 6 (List.length (strings.Fields line))
                   then strings.Join (skipn 6 (strings.Fields line)) " "
                   else Info b).
Proof.
  unfold unmarshalBIRD. cbv zeta.
  set (columns := strings.Fields line). intros H.
  destruct (Nat.ltb (List.length columns) 6) eqn:Hlen; [discriminate|].
  apply Nat.ltb_ge in Hlen.
  destruct (String.eqb (column columns 1) "BGP") eqn:Hbgp; [|discriminate].
  apply String.eqb_eq in Hbgp.
  simpl negb in H. cbv iota in H.
  unfold bgpPeerRegex_FindStringSubmatch in H.
  destruct (Nat.eqb (List.length
                       (matchKinds ["Global"; "Node"; "Mesh"] (column columns 0))) 3)
    eqn:Hsm; simpl negb in H; cbv iota in H; [|discriminate].
  apply Nat.eqb_eq in Hsm.
  destruct (matchKinds_shape _ _ Hsm) as (kind & raw & Hin & Hm & Hname & Hraw).
  rewrite Hm in H. unfold column at 1 2 in H. cbn [nth] in H.
  destruct (bgpTypeMap kind) as [typ|] eqn:Htyp; [|discriminate].
  inversion H; subst p; clear H. cbn [PeerIP Info].
  exists kind, raw, typ. repeat split; auto.
  - rewrite (nth_error_nth' columns "") by lia. f_equal. exact Hname.
  - rewrite (nth_error_nth' columns "") by lia. f_equal. exact Hbgp.
  - rewrite ReplaceAll_underscore. reflexivity.
Qed.

Lemma unmarshalBIRD_accepted b line ipSep kind raw :
  6 <= List.length (strings.Fields line) ->
  nth_error (strings.Fields line) 1 = Some "BGP" ->
  In kind ["Global"; "Node"; "Mesh"] -> raw <> EmptyString ->
  nth_error (strings.Fields line) 0 = Some (kind ++ "_" ++ raw)%string ->
  exists typ,
    bgpTypeMap kind = Some typ
    /\ unmarshalBIRD b line ipSep
       = (true,
          mkPeer (underscoresTo ipSep raw) typ
                 (column (strings.Fields line) 3)
                 (column (strings.Fields line) 4)
                 (column (strings.Fields line) 5)
                 (if Nat.ltb 6 (List.length (strings.Fields line))
                  then strings.Join (skipn 6 (strings.Fields line)) " "
                  else Info b)).
Proof.
  intros Hlen Hbgp Hin Hraw Hname.
  destruct (bgpTypeMap_kinds kind Hin) as (typ & Htyp & _).
  exists typ. split; [exact Htyp|].
  assert (Hnl : noNewline raw = true).
  { apply (token_suffix_noNewline (kind ++ "_")).
    rewrite append_assoc.
    rewrite <- (nth_error_nth _ _ "" Hname).
    apply column_token. lia. }
  unfold unmarshalBIRD. cbv zeta.
  set (columns := strings.Fields line) in *.
  replace (Nat.ltb (List.length columns) 6) with false
    by (symmetry; apply Nat.ltb_ge; exact Hlen).
  assert (H1 : column columns 1 = "BGP")
    by (apply nth_error_nth; exact Hbgp).
  assert (H0 : column columns 0 = (kind ++ "_" ++ raw)%string)
    by (apply nth_error_nth; exact Hname).
  rewrite H1, H0.
  change (negb (String.eqb "BGP" "BGP")) with false. cbv iota.
  unfold bgpPeerRegex_FindStringSubmatch.
  rewrite (matchKinds_complete kind raw Hin Hraw Hnl).
  cbn [List.length Nat.eqb negb]. unfold column at 1 2. cbn [nth].
  rewrite Htyp, ReplaceAll_underscore. reflexivity.
Qed.

(** X8: the line parser accepts a line exactly when it has at least six
    fields, the second is [BGP] and the first is [Global], [Node] or
    [Mesh], an underscore and a non-empty rest. *)
Theorem unmarshalBIRD_accepts_iff b line ipSep :
  fst (unmarshalBIRD b line ipSep) = true <->
  6 <= List.length (strings.Fields line)
  /\ nth_error (strings.Fields line) 1 = Some "BGP"
  /\ exists kind raw,
       In kind ["Global"; "Node"; "Mesh"] /\ raw <> EmptyString
       /\ nth_error (strings.Fields line) 0 = Some (kind ++ "_" ++ raw)%string.
Proof.
  split.
  - intros H. destruct (unmarshalBIRD b line ipSep) as [ok p] eqn:E.
    simpl in H. subst ok.
    destruct (unmarshalBIRD_inv b line ipSep p E)
      as (kind & raw & typ & Hin & Hraw & Hname & _ & Hlen & Hbgp & _).
    repeat split; auto. exists kind, raw. auto.
  - intros (Hlen & Hbgp & kind & raw & Hin & Hraw & Hname).
    destruct (unmarshalBIRD_accepted b line ipSep kind raw Hlen Hbgp Hin Hraw Hname)
      as (typ & _ & ->).
    reflexivity.
Qed.

(** X9: from a fresh record, an accepted line gives the address with the
    delimiter for every underscore of the name, the display type of the
    kind, the fourth to sixth fields as state, since and session state,
    and the remaining fields joined by single spaces as info. *)
Theorem unmarshalBIRD_fresh_record line ipSep kind raw :
  6 <= List.length (strings.Fields line) ->
  nth_error (strings.Fields line) 1 = Some "BGP" ->
  In kind ["Global"; "Node"; "Mesh"] -> raw <> EmptyString ->
  nth_error (strings.Fields line) 0 = Some (kind ++ "_" ++ raw)%string ->
  exists typ,
    bgpTypeMap kind = Some typ
    /\ unmarshalBIRD emptyPeer line ipSep
       = (true,
          mkPeer (underscoresTo ipSep raw) typ
                 (column (strings.Fields line) 3) (column (strings.Fields line) 4)
                 (column (strings.Fields line) 5)
                 (strings.Join (skipn 6 (strings.Fields line)) " ")).
Proof.
  intros Hlen Hbgp Hin Hraw Hname.
  destruct (unmarshalBIRD_accepted emptyPeer line ipSep kind raw
              Hlen Hbgp Hin Hraw Hname) as (typ & Htyp & ->).
  exists typ. split; [exact Htyp|]. do 2 f_equal.
  destruct (Nat.ltb 6 (List.length (strings.Fields line))) eqn:E; [reflexivity|].
  apply Nat.ltb_ge in E. rewrite skipn_all2 by exact E. reflexivity.
Qed.

Lemma unmarshalBIRD_fresh_record_witness :
  exists typ,
    bgpTypeMap "Node" = Some typ
    /\ unmarshalBIRD emptyPeer
         "Node_10_0_0_7   BGP master  start 2016-11-22  Active   Socket: Connection refused"
         "."
       = (true, mkPeer "10.0.0.7" typ "start" "2016-11-22" "Active"
                       "Socket: Connection refused").
Proof.
  destruct (unmarshalBIRD_fresh_record
              "Node_10_0_0_7   BGP master  start 2016-11-22  Active   Socket: Connection refused"
              "." "Node" "10_0_0_7") as (typ & Htyp & Hrec).
  - vm_compute. lia.
  - vm_compute. reflexivity.
  - simpl. auto.
  - discriminate.
  - vm_compute. reflexivity.
  - exists typ. split; [exact Htyp|]. rewrite Hrec. vm_compute. reflexivity.
Defined.

(** ** What a scan returns *)

Lemma noUnderscore_app (a b : string) :
  noUnderscore (a ++ b) = noUnderscore a && noUnderscore b.
Proof. unfold noUnderscore. rewrite bytes_app. apply forallb_app. Qed.

Lemma underscoresTo_noUnderscore (sep raw : string) :
  noUnderscore sep = true -> noUnderscore (underscoresTo sep raw) = true.
Proof.
  intros Hsep. induction raw as [|c raw IH]; [reflexivity|].
  cbn [underscoresTo]. destruct (strings.byteIs 95 c) eqn:E.
  - rewrite noUnderscore_app, Hsep, IH. reflexivity.
  - unfold noUnderscore in *. simpl. rewrite E. exact IH.
Qed.

Lemma underscoresTo_nonempty (sep raw : string) :
  sep <> EmptyString -> raw <> EmptyString ->
  underscoresTo sep raw <> EmptyString.
Proof.
  intros Hsep Hraw. destruct raw as [|c raw]; [congruence|].
  cbn [underscoresTo]. destruct (strings.byteIs 95 c); [|discriminate].
  destruct sep; [congruence | discriminate].
Qed.

Lemma unmarshalBIRD_wellFormed b line ipSep p :
  ipSep = "." \/ ipSep = ":" ->
  unmarshalBIRD b line ipSep = (true, p) ->
  wellFormedPeer p = true.
Proof.
  intros Hsep H.
  destruct (unmarshalBIRD_inv b line ipSep p H)
    as (kind & raw & typ & Hin & Hraw & _ & Htyp & Hlen & _ & ->).
  destruct (bgpTypeMap_kinds kind Hin) as (typ' & Htyp' & Hdisp).
  assert (typ' = typ) by congruence. subst typ'.
  unfold wellFormedPeer. cbn [PeerType PeerIP State Since BGPState].
  rewrite Hdisp, !column_token by lia.
  assert (Hne : underscoresTo ipSep raw <> EmptyString)
    by (apply underscoresTo_nonempty; [destruct Hsep; subst; discriminate | exact Hraw]).
  apply String.eqb_neq in Hne. rewrite Hne.
  rewrite underscoresTo_noUnderscore by (destruct Hsep; subst; reflexivity).
  reflexivity.
Qed.

Lemma scanLoop_forallb (f : bgpPeer -> bool) ipSep :
  (forall row p, unmarshalBIRD emptyPeer row ipSep = (true, p) -> f p = true) ->
  forall lines clean e acc peers err,
    forallb f acc = true ->
    scanLoop ipSep lines clean e acc = Returned (peers, err) ->
    forallb f peers = true.
Proof.
  intros Hrow.
  assert (Happ : forall acc row,
             forallb f acc = true -> forallb f (appendPeer acc row ipSep) = true).
  { intros acc row Hacc. unfold appendPeer.
    destruct (unmarshalBIRD emptyPeer row ipSep) as [[|] p] eqn:E; [|exact Hacc].
    rewrite forallb_app, Hacc. simpl. rewrite (Hrow row p E). reflexivity. }
  induction lines as [|str rest IH]; intros clean e acc peers err Hacc; simpl.
  - intros H. inversion H; subst. exact Hacc.
  - split_line; intros H; try discriminate;
      try (inversion H; subst; reflexivity);
      try (inversion H; subst; exact Hacc);
      (eapply IH; [|eassumption]; auto).
Qed.

(** X10: every peer a BIRD scan returns has one of the three display
    types, a non-empty address without underscore, and a state, a since
    and a session state that are non-empty and free of white space. *)
Theorem scan_peers_well_formed ipv conn peers err :
  scanBIRDPeers ipv conn = Returned (peers, err) ->
  forallb wellFormedPeer peers = true.
Proof.
  unfold scanBIRDPeers.
  apply (scanLoop_forallb wellFormedPeer (ipSepOf ipv)); [|reflexivity].
  intros row p. apply unmarshalBIRD_wellFormed.
  unfold ipSepOf. destruct (String.eqb ipv "6"); auto.
Qed.

Lemma scan_peers_well_formed_witness :
  forallb wellFormedPeer
    [mkPeer "fd80::2" "node-to-node mesh" "up" "2016-11-21" "Established" ""]
  = true.
Proof.
  apply (scan_peers_well_formed "6"
           (mkConn None ["1002 Mesh_fd80__2 BGP master up 2016-11-21 Established"]
                   None)
           _ None).
  vm_compute. reflexivity.
Defined.

(** ** Durations *)

(** X11: the sign of the duration is dropped: a negative count of seconds
    is rendered as its absolute value. *)
Theorem formatTimedelta_drops_sign (d : Z) :
  (0 <= d < 2 ^ 63)%Z -> formatTimedelta (- d) = formatTimedelta d.
Proof.
  intros Hd.
  assert (H63 : (2 ^ 63 = 9223372036854775808)%Z) by reflexivity.
  assert (H64 : (two64 = 18446744073709551616)%Z) by reflexivity.
  destruct (Z.eq_dec d 0) as [->|Hnz]; [reflexivity|].
  assert (Hu : (if (- d <? 0)%Z then (- (- d mod two64)) mod two64 else - d mod two64)%Z
               = (if (d <? 0)%Z then (- (d mod two64)) mod two64 else d mod two64)%Z).
  { replace (- d <? 0)%Z with true by (symmetry; apply Z.ltb_lt; lia).
    replace (d <? 0)%Z with false by (symmetry; apply Z.ltb_ge; lia).
    rewrite (Z.mod_small d two64) by lia.
    assert (Hm : (- d mod two64 = two64 - d)%Z).
    { symmetry. apply (Z.mod_unique (- d) two64 (-1)); lia. }
    rewrite Hm. symmetry. apply (Z.mod_unique (- (two64 - d)) two64 (-1)); lia. }
  unfold formatTimedelta. cbv zeta. rewrite Hu. reflexivity.
Qed.

Lemma formatTimedelta_drops_sign_witness :
  formatTimedelta (-90000) = formatTimedelta 90000.
Proof.
  apply (formatTimedelta_drops_sign 90000).
  split; [lia | reflexivity].
Defined.

(** ** GoBGP neighbours *)

Section GoBGPProperties.

Variable Title : string -> string.
Variable secondsSince : Z -> Z.

Lemma goBGPPeers_acc (ns : list Neighbor) (acc : list bgpPeer) :
  goBGPPeers Title secondsSince ns acc
  = acc ++ flat_map (neighborPeers Title secondsSince) ns.
Proof.
  revert acc. induction ns as [|n ns IH]; intros acc.
  - simpl. rewrite app_nil_r. reflexivity.
  - cbn [flat_map]. unfold neighborPeers. cbn [goBGPPeers].
    destruct (negb (Nat.eqb (List.length
                               (bgpPeerRegex_FindStringSubmatch (Description n))) 3)).
    + rewrite IH. reflexivity.
    + destruct (bgpTypeMap (column (bgpPeerRegex_FindStringSubmatch (Description n)) 1)).
      * rewrite IH. rewrite <- app_assoc. reflexivity.
      * rewrite IH. reflexivity.
Qed.

(** X12: the peers of a GoBGP query are those of the neighbours, one after
    the other; a neighbour gives at most one peer, with the neighbour's
    address and administrative state, the titled session state, no info
    and one of the three display types, and [never] as since when its
    uptime is zero. *)
Theorem goBGP_peers_of_neighbors (ns : list Neighbor) :
  goBGPPeers Title secondsSince ns []
  = flat_map (neighborPeers Title secondsSince) ns
  /\ (forall n p,
         In p (neighborPeers Title secondsSince n) ->
         neighborPeers Title secondsSince n = [p]
         /\ PeerIP p = NeighborAddress n
         /\ State p = AdminState n
         /\ BGPState p = Title (SessionState n)
         /\ Info p = ""
         /\ displayType (PeerType p) = true
         /\ (Uptime n = 0%Z -> Since p = "never")).
Proof.
  split; [apply goBGPPeers_acc|].
  intros n p. unfold neighborPeers. cbn [goBGPPeers].
  unfold bgpPeerRegex_FindStringSubmatch.
  destruct (Nat.eqb (List.length
                       (matchKinds ["Global"; "Node"; "Mesh"] (Description n))) 3)
    eqn:Hsm; cbn [negb]; cbv iota; [|intros []].
  apply Nat.eqb_eq in Hsm.
  destruct (matchKinds_shape _ _ Hsm) as (kind & raw & Hin & Hm & _ & _).
  rewrite Hm. unfold column. cbn [nth].
  destruct (bgpTypeMap_kinds kind Hin) as (typ & -> & Hdisp).
  cbn [app]. intros [<-|[]]. cbn [PeerIP State BGPState Info PeerType Since].
  repeat split; auto.
  intros ->. reflexivity.
Qed.

End GoBGPProperties.

Lemma goBGP_peers_of_neighbors_witness :
  neighborPeers (fun s => s) (fun t => t)
    (mkNeighbor "10.0.0.9" "Global_10_0_0_9" "up" "established" 0 0)
  = [mkPeer "10.0.0.9" "global" "up" "never" "established" ""].
Proof.
  apply (proj2 (goBGP_peers_of_neighbors (fun s => s) (fun t => t) [])
           (mkNeighbor "10.0.0.9" "Global_10_0_0_9" "up" "established" 0 0)
           (mkPeer "10.0.0.9" "global" "up" "never" "established" "")).
  vm_compute. auto.
Defined.

(** ** Printing the BIRD peers *)

Lemma peerRow_tableRow (peer : bgpPeer) : peerRow peer = tableRow peer.
Proof.
  unfold peerRow, tableRow. destruct (String.eqb (Info peer) ""); reflexivity.
Qed.

(** X13: over an open socket, a response whose lines up to the sentinel
    give at least one peer, the sentinel being delivered before any read
    error is recorded, is printed as the status banner followed by one
    table with one row per peer, in the order of the response, and the
    socket is closed. *)
Theorem printBIRDPeers_renders_rows dial ipv c pre line post :
  dialBIRD dial (birdSuffixOf ipv) = Dialed c ->
  connWriteErr c = None ->
  connLines c = pre ++ line :: post ->
  forallb continues pre = true ->
  strings.HasPrefix line "0000" = true ->
  List.length pre < connClean c \/ connErr c = None ->
  collected (ipSepOf ipv) pre <> [] ->
  printBIRDPeers dial ipv
  = ([Fprint (String "010"%char
                ("IPv" ++ ipv ++ " BGP status" ++ String "010"%char EmptyString));
      ConnWrite ("show protocols" ++ String "010"%char EmptyString);
      TableRender ["Peer address"; "Peer type"; "State"; "Since"; "Info"]
                  (map tableRow (collected (ipSepOf ipv) pre));
      ConnClose],
     Returned tt).
Proof.
  intros Hdial Hwrite Hlines Hpre H0 Hclean Hne.
  unfold printBIRDPeers. cbv zeta. rewrite Hdial, Hwrite.
  unfold scanBIRDPeers. rewrite Hlines.
  rewrite scanLoop_collected by assumption.
  cbn [scanLoop app]. rewrite H0.
  assert (Hpending : pendingErr (connClean c - List.length pre) (connErr c) = None).
  { destruct Hclean as [Hlt|Hnone].
    - destruct (connClean c - List.length pre) eqn:D; [lia | reflexivity].
    - rewrite Hnone. destruct (connClean c - List.length pre); reflexivity. }
  rewrite Hpending.
  destruct (collected (ipSepOf ipv) pre) as [|p ps]; [congruence|].
  cbn [List.length Nat.eqb app printPeers].
  rewrite (map_ext _ _ peerRow_tableRow). reflexivity.
Qed.

Lemma printBIRDPeers_renders_rows_witness :
  printBIRDPeers
    (fun path =>
       if String.eqb path "/var/run/bird/bird6.ctl"
       then Dialed (mkStream None
                      [headerRow;
                       "1002 Mesh_fd80__2 BGP master up 2016-11-21 Established";
                       " Node_fd80__3 BGP master start 2016-11-22 Active Socket: refused";
                       "0000 "]
                      (Some "i/o timeout") 4)
       else DialError "connection refused")
    "6"
  = ([Fprint (String "010"%char
                ("IPv6 BGP status" ++ String "010"%char EmptyString));
      ConnWrite ("show protocols" ++ String "010"%char EmptyString);
      TableRender ["Peer address"; "Peer type"; "State"; "Since"; "Info"]
        [["fd80::2"; "node-to-node mesh"; "up"; "2016-11-21"; "Established"];
         ["fd80::3"; "node specific"; "start"; "2016-11-22";
          "Active Socket: refused"]];
      ConnClose],
     Returned tt).
Proof.
  apply (printBIRDPeers_renders_rows _ "6"
           (mkStream None
              [headerRow;
               "1002 Mesh_fd80__2 BGP master up 2016-11-21 Established";
               " Node_fd80__3 BGP master start 2016-11-22 Active Socket: refused";
               "0000 "]
              (Some "i/o timeout") 4)
           [headerRow;
            "1002 Mesh_fd80__2 BGP master up 2016-11-21 Established";
            " Node_fd80__3 BGP master start 2016-11-22 Active Socket: refused"]
           "0000 " []).
  - reflexivity.
  - reflexivity.
  - reflexivity.
  - vm_compute. reflexivity.
  - vm_compute. reflexivity.
  - left. vm_compute. lia.
  - vm_compute. discriminate.
Defined.

(** X14: when the stream ends in a read error before any sentinel, the
    peers already parsed are dropped: the error is printed and no table. *)
Theorem printBIRDPeers_read_error_drops_peers dial ipv c err :
  dialBIRD dial (birdSuffixOf ipv) = Dialed c ->
  connWriteErr c = None ->
  forallb continues (connLines c) = true ->
  connErr c = Some err ->
  printBIRDPeers dial ipv
  = ([banner ipv; showProtocols;
      Fprint ("Error executing command: " ++ err)%string; ConnClose],
     Returned tt).
Proof.
  intros Hdial Hwrite Hlines Herr.
  unfold printBIRDPeers. cbv zeta. rewrite Hdial, Hwrite.
  unfold scanBIRDPeers.
  rewrite <- (app_nil_r (connLines c)) at 1.
  rewrite scanLoop_collected by assumption.
  cbn [scanLoop]. rewrite Herr. reflexivity.
Qed.

Lemma printBIRDPeers_read_error_drops_peers_witness :
  printBIRDPeers
    (fun _ => Dialed (mkConn None
                        [headerRow;
                         "1002 Mesh_10_0_0_1 BGP master up 2016-11-21 Established"]
                        (Some "i/o timeout")))
    "4"
  = ([banner "4"; showProtocols;
      Fprint "Error executing command: i/o timeout"; ConnClose],
     Returned tt).
Proof.
  apply (printBIRDPeers_read_error_drops_peers _ "4"
           (mkConn None
              [headerRow; "1002 Mesh_10_0_0_1 BGP master up 2016-11-21 Established"]
              (Some "i/o timeout"))
           "i/o timeout").
  - reflexivity.
  - reflexivity.
  - vm_compute. reflexivity.
  - reflexivity.
Defined.

(** ** The status handler *)

Lemma countEvents_app (f : event -> bool) (a b : list event) :
  countEvents f (a ++ b) = countEvents f a + countEvents f b.
Proof. unfold countEvents. rewrite filter_app, length_app. reflexivity. Qed.

Lemma balanced_app (a b : list event) :
  balanced a -> balanced b -> balanced (a ++ b).
Proof. unfold balanced. intros Ha Hb. rewrite !countEvents_app. lia. Qed.

Lemma balanced_andThen (first next : list event * outcome unit) :
  balanced (fst first) -> balanced (fst next) -> balanced (fst (andThen first next)).
Proof.
  intros Hf Hn. destruct first as [evs [u|]]; simpl; [|exact Hf].
  apply balanced_app; assumption.
Qed.

Lemma printBIRDPeers_balanced dial ipv : balanced (fst (printBIRDPeers dial ipv)).
Proof.
  unfold printBIRDPeers. cbv zeta.
  destruct (dialBIRD dial (birdSuffixOf ipv)) as [c|err]; [|reflexivity].
  destruct (connWriteErr c); [reflexivity|].
  destruct (scanBIRDPeers ipv c) as [[peers [err|]]|]; try reflexivity.
  destruct peers; reflexivity.
Qed.

Lemma printGoBGPPeers_balanced Title secondsSince new ipv :
  balanced (printGoBGPPeers Title secondsSince new ipv).
Proof.
  unfold printGoBGPPeers.
  destruct new as [list|err]; [|reflexivity].
  destruct (list (afiOf ipv)); [|reflexivity].
  destruct (goBGPPeers Title secondsSince ns []); reflexivity.
Qed.

(** X15: in every run of [Status], a panicking scan included, each BIRD
    socket that was opened and written to is closed again. *)
Theorem Status_closes_every_socket Title secondsSince host :
  countEvents isConnClose (fst (Status Title secondsSince host))
  = countEvents isConnWrite (fst (Status Title secondsSince host)).
Proof.
  change (balanced (fst (Status Title secondsSince host))).
  unfold Status.
  destruct (enforceRoot (hostUid host)); [reflexivity|]. cbv zeta.
  assert (Hlisting : balanced
                       match hostProcessesErr host with
                       | Some err => [Fprint (err ++ nl)%string]
                       | None => []
                       end)
    by (destruct (hostProcessesErr host); reflexivity).
  destruct (negb (psContains ["calico-felix"] (hostProcesses host))
            && negb (psContains ["calico-node"; "-felix"] (hostProcesses host))).
  - simpl. apply balanced_app; [exact Hlisting | reflexivity].
  - apply balanced_andThen.
    + simpl. apply balanced_app; [exact Hlisting | reflexivity].
    + apply balanced_andThen; [|reflexivity].
      destruct (psContains ["bird"] (hostProcesses host)
                || psContains ["bird6"] (hostProcesses host)).
      * apply balanced_andThen.
        -- destruct (psContains ["bird"] (hostProcesses host));
             [apply printBIRDPeers_balanced | reflexivity].
        -- destruct (psContains ["bird6"] (hostProcesses host));
             [apply printBIRDPeers_balanced | reflexivity].
      * destruct (psContains ["calico-bgp-daemon"] (hostProcesses host));
          [|reflexivity].
        simpl. apply balanced_app; apply printGoBGPPeers_balanced.
Qed.

Lemma calico_found (processes : list Process) :
  psContains ["calico-felix"] processes
  || psContains ["calico-node"; "-felix"] processes = true <->
  exists cmds,
    In (Cmdline cmds) processes
    /\ (nth_error cmds 0 = Some "calico-felix"
        \/ nth_error cmds 0 = Some "calico-node"
        \/ nth_error cmds 1 = Some "-felix").
Proof.
  rewrite orb_true_iff, !psContains_positions. split.
  - intros [(cmds & i & tok & Hin & Hp & Hc)|(cmds & i & tok & Hin & Hp & Hc)];
      exists cmds; (split; [exact Hin|]).
    + destruct i as [|[|i]]; simpl in Hp; try discriminate.
      inversion Hp; subst tok. auto.
    + destruct i as [|[|[|i]]]; simpl in Hp; try discriminate;
        inversion Hp; subst tok; auto.
  - intros (cmds & Hin & [H|[H|H]]).
    + left. exists cmds, 0, "calico-felix". auto.
    + right. exists cmds, 0, "calico-node". auto.
    + right. exists cmds, 1, "-felix". auto.
Qed.

(** X16: run as root with a readable process list, [Status] reports the
    Calico process as running exactly when some process has
    [calico-felix] or [calico-node] as its first argument or [-felix] as
    its second. *)
Theorem Status_reports_calico_running Title secondsSince host :
  hostUid host = 0%Z ->
  hostProcessesErr host = None ->
  In (Fprint ("Calico process is running." ++ nl)%string)
     (fst (Status Title secondsSince host))
  <->
  exists cmds,
    In (Cmdline cmds) (hostProcesses host)
    /\ (nth_error cmds 0 = Some "calico-felix"
        \/ nth_error cmds 0 = Some "calico-node"
        \/ nth_error cmds 1 = Some "-felix").
Proof.
  intros Huid Herr. rewrite <- calico_found.
  unfold Status, enforceRoot. rewrite Huid, Herr. cbn [Z.eqb negb]. cbv iota zeta.
  destruct (psContains ["calico-felix"] (hostProcesses host));
    destruct (psContains ["calico-node"; "-felix"] (hostProcesses host));
    cbn [negb andb orb]; cbv iota.
  1-3: split; [reflexivity | intros _; simpl; auto].
  split; [|discriminate].
  simpl. intros [H|[]]. inversion H.
Qed.

Lemma Status_reports_calico_running_witness :
  In (Fprint ("Calico process is running." ++ nl)%string)
     (fst (Status (fun s => s) (fun t => t)
             (mkHost 0 [CmdlineError "no such process";
                        Cmdline ["calico-node"; "-confd"]]
                     None (fun _ => DialError "connection refused")
                     (fun _ => ClientError "unavailable")))).
Proof.
  apply (proj2 (Status_reports_calico_running (fun s => s) (fun t => t)
                  (mkHost 0 [CmdlineError "no such process";
                             Cmdline ["calico-node"; "-confd"]]
                          None (fun _ => DialError "connection refused")
                          (fun _ => ClientError "unavailable"))
                  eq_refl eq_refl)).
  exists ["calico-node"; "-confd"]. simpl. auto.
Defined.
